(** * Garanti payment connector and delivery bookkeeping: a shallow embedding

    The development follows the three source files of the repository:

    - [payment_garanti/models/garanti_connector.py]  (class [GarantiConnector]),
    - [payment_garanti/controllers/main.py]          (class [GarantiController]),
    - [delivery_integration_base/models/stock_picking.py] (class [StockPicking]).

    Python [str] values are modelled by [string]; a character is a code point
    in the range U+0000..U+00FF, which is the alphabet of every protocol field
    (identifiers, URLs, digits).  Python [int] is [Z].  Python [float] is
    IEEE-754 binary64, modelled by [spec_float] with the operations of the
    standard library's [SpecFloat].  Code that can raise returns a [result]. *)

From Stdlib Require Import ZArith List String Ascii Bool Lia.
From Stdlib Require Import DecimalString SpecFloat.
Import ListNotations.

Set Warnings "-register-all".

Local Open Scope string_scope.
Local Open Scope Z_scope.

(* ===================================================================== *)
(** ** Exceptions and fallible computations *)
(* ===================================================================== *)

(** The exception classes that the modelled code can raise.  The connector
    itself only ever constructs [ValidationError]; the other classes come
    from the interpreter and from the libraries it calls. *)
Inductive exn : Type :=
| ValidationError (msg : string)
| AttributeError
| KeyError (key : string)
| TypeError
| ValueError
| OverflowError
| UnboundLocalError (name : string)
| XMLSyntaxError
| RequestException
| MissingError.

Inductive result (A : Type) : Type :=
| Return (a : A)
| Raise (e : exn).
Arguments Return {A} a.
Arguments Raise {A} e.

Definition bind {A B : Type} (c : result A) (k : A -> result B) : result B :=
  match c with
  | Return a => k a
  | Raise e => Raise e
  end.

(** [try: c  except Exception: h] *)
Definition try_except {A : Type} (c : result A) (h : exn -> result A) : result A :=
  match c with
  | Return a => Return a
  | Raise e => h e
  end.

Declare Scope py_scope.
Delimit Scope py_scope with py.
Notation "x <- c ;; k" := (bind c (fun x => k))
  (at level 61, c at next level, right associativity) : py_scope.

(* ===================================================================== *)
(** ** Python string operations used by the connector *)
(* ===================================================================== *)

Module PyStr.

(** [str(n)] for an [int]. *)
Definition str_of_int (n : Z) : string :=
  NilEmpty.string_of_int (Z.to_int n).

Fixpoint repeat_char (c : ascii) (n : nat) : string :=
  match n with
  | O => ""
  | S k => String c (repeat_char c k)
  end.

(** [s.zfill(width)]: left padding with ['0'], inserted after a leading
    sign character. *)
Definition zfill (s : string) (width : nat) : string :=
  let fill := repeat_char "0" (width - String.length s) in
  match s with
  | String c rest =>
      if (Ascii.eqb c "+" || Ascii.eqb c "-")%bool
      then String c (fill ++ rest)
      else fill ++ s
  | EmptyString => fill
  end.

(** [s.split(sep)[0]] for a one-character separator: the text before the
    first separator, the whole text when there is none. *)
Fixpoint split_first (sep : ascii) (s : string) : string :=
  match s with
  | EmptyString => ""
  | String c rest =>
      if Ascii.eqb c sep then "" else String c (split_first sep rest)
  end.

(** [s.startswith(p)] *)
Fixpoint startswith (p s : string) : bool :=
  match p, s with
  | EmptyString, _ => true
  | String a p', String b s' => (Ascii.eqb a b && startswith p' s')%bool
  | String _ _, EmptyString => false
  end.

Fixpoint drop (n : nat) (s : string) : string :=
  match n, s with
  | O, _ => s
  | S k, String _ rest => drop k rest
  | S _, EmptyString => ""
  end.

Fixpoint take (n : nat) (s : string) : string :=
  match n, s with
  | O, _ => ""
  | S k, String c rest => String c (take k rest)
  | S _, EmptyString => ""
  end.

(** [s.replace(old, new)] for a non-empty [old]: the non-overlapping
    occurrences of [old] are replaced, scanning from the left.  [skip]
    counts the characters of the current occurrence still to be consumed. *)
Fixpoint replace_scan (old new : string) (skip : nat) (s : string) : string :=
  match s with
  | EmptyString => ""
  | String c rest =>
      match skip with
      | S k => replace_scan old new k rest
      | O =>
          if startswith old s
          then new ++ replace_scan old new (String.length old - 1) rest
          else String c (replace_scan old new 0 rest)
      end
  end.

Definition replace (s old new : string) : string :=
  replace_scan old new 0 s.

(** [sub in s] *)
Fixpoint contains (sub s : string) : bool :=
  (startswith sub s ||
   match s with
   | EmptyString => false
   | String _ rest => contains sub rest
   end)%bool.

(** [s[-n:]] *)
Definition last_chars (n : nat) (s : string) : string :=
  drop (String.length s - n) s.

(** [c.isdigit()] on the modelled alphabet, which is also what the regular
    expression class [\d] accepts there. *)
Definition is_digit (c : ascii) : bool :=
  let n := nat_of_ascii c in ((48 <=? n)%nat && (n <=? 57)%nat)%bool.

(** [s.upper()] on ASCII letters; it is only applied to hexadecimal
    digests. *)
Definition upper_char (c : ascii) : ascii :=
  let n := nat_of_ascii c in
  if ((97 <=? n)%nat && (n <=? 122)%nat)%bool then ascii_of_nat (n - 32) else c.

Fixpoint upper (s : string) : string :=
  match s with
  | EmptyString => ""
  | String c rest => String (upper_char c) (upper rest)
  end.

(** [s.encode("utf-8")]: one byte below U+0080, two bytes up to U+00FF. *)
Definition encode_char (c : ascii) : list Z :=
  let n := Z.of_nat (nat_of_ascii c) in
  if n <? 128 then [n]
  else [Z.lor 192 (Z.shiftr n 6); Z.lor 128 (Z.land n 63)].

Fixpoint encode_utf8 (s : string) : list Z :=
  match s with
  | EmptyString => []
  | String c rest => (encode_char c ++ encode_utf8 rest)%list
  end.

End PyStr.

(* ===================================================================== *)
(** ** SHA-1 ([hashlib.sha1]) *)
(* ===================================================================== *)

(** [hashlib] is not part of the repository; the digest is the function of
    FIPS 180-4 on 32-bit words, written out on [Z] with explicit
    wrap-around. *)
Module Sha1.

Definition mask32 : Z := 4294967295.
Definition wrap32 (x : Z) : Z := Z.land x mask32.
Definition add32 (x y : Z) : Z := wrap32 (x + y).
Definition not32 (x : Z) : Z := Z.lxor x mask32.
Definition rotl32 (n x : Z) : Z :=
  Z.lor (wrap32 (Z.shiftl x n)) (Z.shiftr x (32 - n)).

(** The length of the message in bits, as 8 big-endian bytes. *)
Definition length_bytes (bits : Z) : list Z :=
  map (fun i => Z.land (Z.shiftr bits (8 * i)) 255) [7; 6; 5; 4; 3; 2; 1; 0].

(** Padding: the bit 1, then zeros up to 56 modulo 64, then the length. *)
Definition pad (msg : list Z) : list Z :=
  let len := Z.of_nat (List.length msg) in
  let zeros := Z.to_nat ((55 - len) mod 64) in
  (msg ++ [128] ++ repeat 0 zeros ++ length_bytes (8 * len))%list.

(** Big-endian 32-bit words of a byte sequence. *)
Fixpoint words (bytes : list Z) : list Z :=
  match bytes with
  | b0 :: b1 :: b2 :: b3 :: rest =>
      (Z.shiftl b0 24 + Z.shiftl b1 16 + Z.shiftl b2 8 + b3) :: words rest
  | _ => []
  end.

Fixpoint blocks (fuel : nat) (ws : list Z) : list (list Z) :=
  match fuel, ws with
  | S k, _ :: _ => firstn 16 ws :: blocks k (skipn 16 ws)
  | _, _ => []
  end.

(** Message schedule, most recent word first:
    [w(t) = rotl 1 (w(t-3) xor w(t-8) xor w(t-14) xor w(t-16))]. *)
Fixpoint schedule (n : nat) (rev_w : list Z) : list Z :=
  match n with
  | O => rev_w
  | S k =>
      let w i := nth i rev_w 0 in
      schedule k
        (rotl32 1 (Z.lxor (Z.lxor (w 2%nat) (w 7%nat))
                          (Z.lxor (w 13%nat) (w 15%nat))) :: rev_w)
  end.

Definition f_round (t : nat) (b c d : Z) : Z :=
  if (t <? 20)%nat then Z.lor (Z.land b c) (Z.land (not32 b) d)
  else if (t <? 40)%nat then Z.lxor (Z.lxor b c) d
  else if (t <? 60)%nat
       then Z.lor (Z.lor (Z.land b c) (Z.land b d)) (Z.land c d)
  else Z.lxor (Z.lxor b c) d.

Definition k_round (t : nat) : Z :=
  if (t <? 20)%nat then 1518500249
  else if (t <? 40)%nat then 1859775393
  else if (t <? 60)%nat then 2400959708
  else 3395469782.

Record state : Type := State { h0 : Z; h1 : Z; h2 : Z; h3 : Z; h4 : Z }.

Definition initial : state :=
  State 1732584193 4023233417 2562383102 271733878 3285377520.

Fixpoint rounds (t : nat) (ws : list Z) (s : state) : state :=
  match ws with
  | [] => s
  | w :: rest =>
      let '(State a b c d e) := s in
      let temp :=
        add32 (add32 (add32 (add32 (rotl32 5 a) (f_round t b c d)) e)
                     (k_round t)) w in
      rounds (S t) rest (State temp a (rotl32 30 b) c d)
  end.

Definition compress (s : state) (block : list Z) : state :=
  let w := rev (schedule 64 (rev block)) in
  let '(State a b c d e) := rounds 0 w s in
  State (add32 (h0 s) a) (add32 (h1 s) b) (add32 (h2 s) c)
        (add32 (h3 s) d) (add32 (h4 s) e).

Definition digest (msg : list Z) : state :=
  let ws := words (pad msg) in
  fold_left compress (blocks (List.length ws) ws) initial.

Definition hex_digit (n : Z) : ascii :=
  if n <? 10 then ascii_of_nat (48 + Z.to_nat n)
  else ascii_of_nat (87 + Z.to_nat n).

Fixpoint string_of_chars (l : list ascii) : string :=
  match l with
  | [] => ""
  | c :: rest => String c (string_of_chars rest)
  end.

Definition hex_word (w : Z) : string :=
  string_of_chars
    (map (fun i => hex_digit (Z.land (Z.shiftr w (4 * i)) 15))
         [7; 6; 5; 4; 3; 2; 1; 0]).

(** [sha1(msg).hexdigest()]: 40 lowercase hexadecimal digits. *)
Definition hexdigest (msg : list Z) : string :=
  let '(State a b c d e) := digest msg in
  hex_word a ++ hex_word b ++ hex_word c ++ hex_word d ++ hex_word e.

End Sha1.

(** [sha1(s.encode("utf-8")).hexdigest().upper()], the one way in which the
    connector hashes. *)
Definition sha1_hex_upper (s : string) : string :=
  PyStr.upper (Sha1.hexdigest (PyStr.encode_utf8 s)).

(* ===================================================================== *)
(** ** Python floats (IEEE-754 binary64) *)
(* ===================================================================== *)

Module Float.

Definition prec : Z := 53.
Definition emax : Z := 1024.

Definition float : Type := spec_float.

(** [x * y] *)
Definition mul (x y : float) : float := SFmul prec emax x y.

(** The literal [100]. *)
Definition hundred : float := S754_finite false 7036874417766400 (-46).

(** The integer nearest to [m / 2^k], ties to the even one. *)
Definition nearest_even (m k : Z) : Z :=
  let q := m / 2 ^ k in
  let r := m mod 2 ^ k in
  let half := 2 ^ (k - 1) in
  if r <? half then q
  else if half <? r then q + 1
  else if Z.even q then q else q + 1.

(** [round(x, 0)]: nan and the infinities round to themselves, a float
    with no fractional bits is returned as it is, any other one becomes the
    nearest integer, ties to even, with the sign kept (also on zero).  The
    integer [n] is returned as the float [n * 2^0]; only its value is
    read afterwards. *)
Definition round0 (x : float) : float :=
  match x with
  | S754_finite s m e =>
      if 0 <=? e then x
      else match nearest_even (Zpos m) (- e) with
           | Zpos n => S754_finite s n 0
           | _ => S754_zero s
           end
  | _ => x
  end.

(** [int(x)]: truncation toward zero; [ValueError] on nan and
    [OverflowError] on an infinity. *)
Definition int_of_float (x : float) : result Z :=
  match x with
  | S754_zero _ => Return 0
  | S754_infinity _ => Raise OverflowError
  | S754_nan => Raise ValueError
  | S754_finite s m e =>
      Return (cond_Zopp s
                (if 0 <=? e then Zpos m * 2 ^ e else Zpos m / 2 ^ (- e)))
  end.

End Float.

(* ===================================================================== *)
(** ** Data model of the connector *)
(* ===================================================================== *)

(** A Python value of the kinds that occur in the parameter set. *)
Inductive pyval : Type :=
| PyNone
| PyStr (s : string)
| PyInt (n : Z)
| PyBool (b : bool).

(** A [dict] with string keys, in insertion order. *)
Definition dict (V : Type) : Type := list (string * V).

(** [d.get(key)] *)
Fixpoint dict_get {V : Type} (d : dict V) (key : string) : option V :=
  match d with
  | [] => None
  | (k, v) :: rest => if String.eqb k key then Some v else dict_get rest key
  end.

(** The [payment.transaction] record as the connector reads and writes it. *)
Record transaction : Type := {
  reference : string;
  partner_email : string;
  partner_lang : option string;
  garanti_payment_currency_id : Z;
  garanti_secure3d_hash : option string;
  tx_state : string
}.

(** The [payment.acquirer] record as the connector reads it.  The acquirer
    model is outside the three source files: each of its methods that the
    connector calls is a field holding what the method returns. *)
Record acquirer : Type := {
  garanti_terminal_id : string;
  garanti_prov_user : string;
  garanti_prov_password : string;
  garanti_merchant_id : string;
  garanti_store_key : string;
  debug_logging : bool;
  _garanti_get_api_url : string;
  _garanti_get_prov_url : string;
  _garanti_get_return_url : string;
  _garanti_get_mode : string;
  _garanti_get_company_name : string;
  _garanti_get_currency_code : Z -> transaction -> string;
  _garanti_format_card_number : option string -> pyval
}.

Definition set_garanti_secure3d_hash (tx : transaction) (h : string)
  : transaction :=
  {| reference := reference tx;
     partner_email := partner_email tx;
     partner_lang := partner_lang tx;
     garanti_payment_currency_id := garanti_payment_currency_id tx;
     garanti_secure3d_hash := Some h;
     tx_state := tx_state tx |}.

(** The attributes of a [GarantiConnector] instance.  [notification_data]
    is only set by the callback and the query; it starts empty. *)
Record GarantiConnector : Type := {
  url : string;
  provider : acquirer;
  tx : transaction;
  amount : Z;
  currency_id : Z;
  card_args : dict string;
  client_ip : string;
  timeout : Z;
  _debug : bool;
  notification_data : dict string
}.

Definition with_tx (self : GarantiConnector) (t : transaction)
  : GarantiConnector :=
  {| url := url self; provider := provider self; tx := t;
     amount := amount self; currency_id := currency_id self;
     card_args := card_args self; client_ip := client_ip self;
     timeout := timeout self; _debug := _debug self;
     notification_data := notification_data self |}.

Definition with_notification_data (self : GarantiConnector) (d : dict string)
  : GarantiConnector :=
  {| url := url self; provider := provider self; tx := tx self;
     amount := amount self; currency_id := currency_id self;
     card_args := card_args self; client_ip := client_ip self;
     timeout := timeout self; _debug := _debug self;
     notification_data := d |}.

(** [GarantiConnector.reference] (property) *)
Definition connector_reference (self : GarantiConnector) : string :=
  PyStr.split_first "-" (reference (tx self)).

(** [GarantiConnector._get_partner_email] *)
Definition _get_partner_email (self : GarantiConnector) : string :=
  PyStr.split_first "," (partner_email (tx self)).

(** [GarantiConnector._get_amount]: [int(round(amount * 100, 0))] *)
Definition _get_amount (amount : Float.float) : result Z :=
  Float.int_of_float (Float.round0 (Float.mul amount Float.hundred)).

(** [GarantiConnector.__init__] *)
Definition GarantiConnector_init (acq : acquirer) (t : transaction)
    (amount : Float.float) (card_args : dict string) (client_ip : string)
  : result GarantiConnector :=
  match _get_amount amount with
  | Raise e => Raise e
  | Return a =>
      Return {| url := _garanti_get_api_url acq; provider := acq; tx := t;
                amount := a;
                currency_id := garanti_payment_currency_id t;
                card_args := card_args; client_ip := client_ip;
                timeout := 10; _debug := debug_logging acq;
                notification_data := [] |}
  end.

(** [GarantiConnector._garanti_compute_security_data] *)
Definition _garanti_compute_security_data (self : GarantiConnector) : string :=
  sha1_hex_upper
    (garanti_prov_password (provider self)
     ++ PyStr.zfill (garanti_terminal_id (provider self)) 9).

(** The text hashed by [_garanti_create_secure3d_hash] ([hash_strings]). *)
Definition hash_strings (self : GarantiConnector) : string :=
  garanti_terminal_id (provider self)
  ++ connector_reference self
  ++ PyStr.str_of_int (amount self)
  ++ _garanti_get_return_url (provider self)
  ++ _garanti_get_return_url (provider self)
  ++ "sales"
  ++ garanti_store_key (provider self)
  ++ _garanti_compute_security_data self.

(** [GarantiConnector._garanti_create_secure3d_hash]: the digest is saved on
    the transaction and returned. *)
Definition _garanti_create_secure3d_hash (self : GarantiConnector)
  : GarantiConnector * string :=
  let h := sha1_hex_upper (hash_strings self) in
  (with_tx self (set_garanti_secure3d_hash (tx self) h), h).

(* ===================================================================== *)
(** ** HTTP exchange and audit logging *)
(* ===================================================================== *)

(** Documents as the two parsers build them.  [lxml.etree] and
    [BeautifulSoup] are libraries: a response carries, next to its text, the
    tree that each parser makes of it. *)
Inductive element : Type :=
| Element (tag : string) (text : option string) (children : list element).

Inductive html_node : Type :=
| Tag (name : string) (attrs : dict string) (children : list html_node)
| NavigableString (s : string).

Definition soup : Type := list html_node.

(** What [requests] is asked to send. *)
Record http_call : Type := {
  call_method : string;
  call_url : string;
  call_params : dict pyval;
  call_data : option string
}.

(** [response.request]: the prepared request. *)
Record prepared_request : Type := {
  req_method : string;
  req_url : string;
  req_body : option string
}.

Record http_response : Type := {
  status_code : Z;
  resp_text : string;
  request : prepared_request;
  (** [etree.fromstring(resp.content)]: [None] when lxml raises
      [XMLSyntaxError]. *)
  content_xml : option element;
  (** [BeautifulSoup(response.text, "html.parser")] *)
  text_soup : soup
}.

(** The provider's end of the wire: an answer, or the exception that
    [requests] raises (connection failure, timeout). *)
Definition network : Type := http_call -> result http_response.

(** The audit log written by [provider.log_xml(text, name)]. *)
Definition audit_log : Type := list (string * string).

Definition nl : string := String (ascii_of_nat 10) "".

(** ["%s" % v] *)
Definition str_of_option (v : option string) : string :=
  match v with
  | Some s => s
  | None => "None"
  end.

(** [True] when the text starts with [n] digits. *)
Fixpoint digits_prefix (n : nat) (s : string) : bool :=
  match n with
  | O => true
  | S k =>
      match s with
      | EmptyString => false
      | String c rest => (PyStr.is_digit c && digits_prefix k rest)%bool
      end
  end.

(** [re.search(r"\d{16}", data)]: the leftmost run of 16 digits, as
    [card_number.group()]. *)
Fixpoint re_search_16_digits (data : string) : option string :=
  match data with
  | EmptyString => None
  | String _ rest =>
      if digits_prefix 16 data then Some (PyStr.take 16 data)
      else re_search_16_digits rest
  end.

(** [_anonymize_sensitive_data], local to [_process_http_request] *)
Definition _anonymize_sensitive_data (data : string) : string :=
  match re_search_16_digits data with
  | Some card_number =>
      PyStr.replace data card_number ("****" ++ PyStr.last_chars 4 card_number)
  | None => data
  end.

(** [_serialize_request], local to [_process_http_request] *)
Definition _serialize_request (r : prepared_request) : string :=
  _anonymize_sensitive_data
    ("Request: " ++ req_method r ++ " " ++ req_url r ++ nl
     ++ str_of_option (req_body r) ++ nl ++ nl).

(** [_serialize_response], local to [_process_http_request] *)
Definition _serialize_response (resp : http_response) : string :=
  _anonymize_sensitive_data
    ("Response: " ++ PyStr.str_of_int (status_code resp) ++ nl
     ++ resp_text resp ++ nl ++ nl).

(** [GarantiConnector._process_http_request]: returns the log and [True]. *)
Definition _process_http_request (self : GarantiConnector)
    (response : http_response) (log : audit_log) : audit_log * bool :=
  if negb (_debug self) then (log, true)
  else
    ((log ++ [(_serialize_request (request response), "garanti_request");
              (_serialize_response response, "garanti_response")])%list,
     true).

(** [response.raise_for_status()] *)
Definition raise_for_status (resp : http_response) : result unit :=
  if ((400 <=? status_code resp) && (status_code resp <? 600))%bool
  then Raise RequestException
  else Return tt.

(** [GarantiConnector._garanti_requests] *)
Definition _garanti_requests (self : GarantiConnector) (net : network)
    (call : http_call) (log : audit_log) : audit_log * result http_response :=
  match net call with
  | Raise e => (log, Raise e)
  | Return response =>
      let '(log', _) := _process_http_request self response log in
      match raise_for_status response with
      | Raise e => (log', Raise e)
      | Return _ => (log', Return response)
      end
  end.

(* ===================================================================== *)
(** ** Initiate phase: parameter set, request, HTML response *)
(* ===================================================================== *)

(** The serialisers of the two document libraries. *)
Class Serializers : Type := {
  (** [str(tag)] and [str(soup)] of BeautifulSoup *)
  bs4_str : soup -> string;
  (** [etree.tostring(root, encoding="UTF-8", xml_declaration=True,
      pretty_print=True).decode("utf-8")] *)
  etree_tostring : element -> string
}.

Definition pyval_of_option (v : option string) : pyval :=
  match v with
  | Some s => PyStr s
  | None => PyNone
  end.

(** [GarantiConnector._garanti_get_partner_lang] *)
Definition _garanti_get_partner_lang (self : GarantiConnector) : string :=
  match partner_lang (tx self) with
  | Some lang =>
      if (negb (String.eqb lang "")
          && (String.eqb lang "tr_TR" || String.eqb lang "tr"))%bool
      then "tr" else "en"
  | None => "en"
  end.

(** The value of the ["cardexpiredateyear"] entry:
    [self.card_args.get("card_valid_year").replace("20", "")] *)
Definition cardexpiredateyear (card_args : dict string) : result string :=
  match dict_get card_args "card_valid_year" with
  | Some year => Return (PyStr.replace year "20" "")
  | None => Raise AttributeError
  end.

(** [GarantiConnector._garanti_create_payment_vals].  [timestamp] is
    [round(time.time() * 1000)].  The entries are evaluated in the order of
    the dictionary display; the last one saves the hash on the transaction. *)
Definition _garanti_create_payment_vals (self : GarantiConnector)
    (timestamp : Z) : result (GarantiConnector * dict pyval) :=
  match cardexpiredateyear (card_args self) with
  | Raise e => Raise e
  | Return year =>
      let p := provider self in
      let '(self', secure3dhash) := _garanti_create_secure3d_hash self in
      Return
        (self',
         [ ("refreshtime", PyStr "0");
           ("paymenttype", PyStr "creditcard");
           ("secure3dsecuritylevel", PyStr "3D");
           ("txntype", PyStr "sales");
           ("cardname", pyval_of_option (dict_get (card_args self) "card_name"));
           ("cardnumber",
            _garanti_format_card_number p
              (dict_get (card_args self) "card_number"));
           ("cardexpiredatemonth",
            pyval_of_option (dict_get (card_args self) "card_valid_month"));
           ("cardexpiredateyear", PyStr year);
           ("cardcvv2", pyval_of_option (dict_get (card_args self) "card_cvv"));
           ("companyname", PyStr (_garanti_get_company_name p));
           ("apiversion", PyStr "12");
           ("mode", PyStr (_garanti_get_mode p));
           ("terminalprovuserid", PyStr (garanti_prov_user p));
           ("terminaluserid", PyStr (garanti_terminal_id p));
           ("terminalid", PyStr (garanti_terminal_id p));
           ("terminalmerchantid", PyStr (garanti_merchant_id p));
           ("orderid", PyStr (connector_reference self));
           ("customeremailaddress", PyStr (_get_partner_email self));
           ("customeripaddress", PyStr (client_ip self));
           ("txnamount", PyStr (PyStr.str_of_int (amount self)));
           ("txncurrencycode",
            PyStr (_garanti_get_currency_code p (currency_id self) (tx self)));
           ("txninstallmentcount", PyStr "");
           ("successurl", PyStr (_garanti_get_return_url p));
           ("errorurl", PyStr (_garanti_get_return_url p));
           ("lang", PyStr (_garanti_get_partner_lang self));
           ("txntimestamp", PyInt timestamp);
           ("txntimeoutperiod", PyInt 60);
           ("addcampaigninstallment", PyStr "N");
           ("totalinstallmentcount", PyStr "0");
           ("installmentonlyforcommercialcard", PyStr "N");
           ("secure3dhash", PyStr secure3dhash) ])
  end.

(** [soup.find(name, {key: value})]: the first tag, in document order, with
    that name and that attribute value. *)
Fixpoint find_in_node (name key value : string) (n : html_node)
  : option html_node :=
  match n with
  | NavigableString _ => None
  | Tag nm attrs children =>
      if (String.eqb nm name
          && match dict_get attrs key with
             | Some v => String.eqb v value
             | None => false
             end)%bool
      then Some n
      else
        (fix find_in_list (l : list html_node) : option html_node :=
           match l with
           | [] => None
           | x :: rest =>
               match find_in_node name key value x with
               | Some t => Some t
               | None => find_in_list rest
               end
           end) children
  end.

Fixpoint soup_find (name key value : string) (s : soup) : option html_node :=
  match s with
  | [] => None
  | x :: rest =>
      match find_in_node name key value x with
      | Some t => Some t
      | None => soup_find name key value rest
      end
  end.

(** [tag[key]] *)
Definition tag_getitem (t : html_node) (key : string) : result string :=
  match t with
  | Tag _ attrs _ =>
      match dict_get attrs key with
      | Some v => Return v
      | None => Raise (KeyError key)
      end
  | NavigableString _ => Raise TypeError
  end.

Definition msg_not_authenticated : string :=
  "Payment failed. POS: Card is not authenticated.".

Definition msg_payment_error (detail : string) : string :=
  "Payment Error: " ++ detail.

Definition msg_try_again_initiate : string :=
  "Payment Error: An error occurred. Please try again.".

(** [GarantiConnector._garanti_parse_response_html] *)
Definition _garanti_parse_response_html `{Serializers}
    (response : http_response) : result (string * string) :=
  let soup := text_soup response in
  match soup_find "input" "name" "mderrormessage" soup with
  | Some error_msg =>
      match tag_getitem error_msg "value" with
      | Raise e => Raise e
      | Return value =>
          if String.eqb value "Not Authenticated"
          then Raise (ValidationError msg_not_authenticated)
          else Raise (ValidationError (msg_payment_error value))
      end
  | None =>
      match soup_find "form" "id" "webform0" soup with
      | Some form => Return ("form", bs4_str [form])
      | None => Return ("redirect", bs4_str soup)
      end
  end.

(** [GarantiConnector._garanti_make_payment_request] *)
Definition _garanti_make_payment_request `{Serializers}
    (self : GarantiConnector) (net : network) (timestamp : Z)
    (log : audit_log)
  : GarantiConnector * audit_log * result (string * string) :=
  match _garanti_create_payment_vals self timestamp with
  | Raise e => (self, log, Raise e)
  | Return (self', vals) =>
      let '(log', r) :=
        _garanti_requests self' net
          {| call_method := "POST";
             call_url := _garanti_get_api_url (provider self');
             call_params := vals; call_data := None |} log in
      (self', log',
       try_except
         (bind r (fun resp => _garanti_parse_response_html resp))
         (fun _ => Raise (ValidationError msg_try_again_initiate)))
  end.

(* ===================================================================== *)
(** ** Confirmation and query phases: XML documents *)
(* ===================================================================== *)

(** [GarantiConnector._garanti_compute_callback_hash_data] *)
Definition _garanti_compute_callback_hash_data (self : GarantiConnector)
  : string :=
  let nd := notification_data self in
  sha1_hex_upper
    (str_of_option (dict_get nd "oid")
     ++ str_of_option (dict_get nd "clientid")
     ++ str_of_option (dict_get nd "txnamount")
     ++ _garanti_compute_security_data self).

(** [etree.SubElement(parent, tag)] followed by the assignment of its text
    and the construction of its own children. *)
Definition SubElement (parent : element) (tag : string) (text : option string)
    (children : list element) : element :=
  match parent with
  | Element ptag ptext pchildren =>
      Element ptag ptext (pchildren ++ [Element tag text children])
  end.

Definition leaf (tag : string) (text : option string) : element :=
  Element tag text [].

(** [GarantiConnector._garanti_terminal_node] *)
Definition _garanti_terminal_node (self : GarantiConnector)
    (gvps_request : element) : element :=
  let nd := notification_data self in
  SubElement gvps_request "Terminal" None
    [ leaf "ProvUserID" (dict_get nd "terminalprovuserid");
      leaf "HashData" (Some (_garanti_compute_callback_hash_data self));
      leaf "UserID" (dict_get nd "terminaluserid");
      leaf "ID" (dict_get nd "clientid");
      leaf "MerchantID" (dict_get nd "terminalmerchantid") ].

(** [GarantiConnector._garanti_customer_node] *)
Definition _garanti_customer_node (self : GarantiConnector)
    (gvps_request : element) : element :=
  let nd := notification_data self in
  SubElement gvps_request "Customer" None
    [ leaf "IPAddress" (dict_get nd "customeripaddress");
      leaf "EmailAddress" (dict_get nd "customeremailaddress") ].

(** [GarantiConnector._garanti_card_node] *)
Definition _garanti_card_node (gvps_request : element) : element :=
  SubElement gvps_request "Card" None
    [ leaf "Number" (Some ""); leaf "ExpireDate" (Some "");
      leaf "CVV2" (Some "") ].

(** [GarantiConnector._garanti_address_list_node] *)
Definition _garanti_address_list_node (order_node : element) : element :=
  SubElement order_node "AddressList" None
    [ Element "Address" None
        [ leaf "Type" (Some "B"); leaf "Name" (Some "");
          leaf "LastName" (Some ""); leaf "Company" (Some "");
          leaf "Text" (Some ""); leaf "District" (Some "");
          leaf "City" (Some ""); leaf "PostalCode" (Some "");
          leaf "Country" (Some ""); leaf "PhoneNumber" (Some "") ] ].

(** [GarantiConnector._garanti_order_node] *)
Definition _garanti_order_node (self : GarantiConnector)
    (gvps_request : element) : element :=
  let nd := notification_data self in
  match gvps_request with
  | Element rtag rtext rchildren =>
      Element rtag rtext
        (rchildren ++
         [ _garanti_address_list_node
             (Element "Order" None
                [ leaf "OrderID" (dict_get nd "oid");
                  leaf "GroupID" (Some "") ]) ])
  end.

(** [GarantiConnector._garanti_transaction_node] *)
Definition _garanti_transaction_node (self : GarantiConnector)
    (gvps_request : element) : element :=
  let nd := notification_data self in
  SubElement gvps_request "Transaction" None
    [ leaf "Type" (dict_get nd "txntype");
      leaf "InstallmentCnt" (dict_get nd "txninstallmentcount");
      leaf "Amount" (dict_get nd "txnamount");
      leaf "CurrencyCode" (dict_get nd "txncurrencycode");
      leaf "CardholderPresentCode" (Some "13");
      leaf "MotoInd" (Some "N");
      Element "Secure3D" None
        [ leaf "AuthenticationCode" (dict_get nd "cavv");
          leaf "SecurityLevel" (dict_get nd "eci");
          leaf "TxnID" (dict_get nd "xid");
          leaf "Md" (dict_get nd "md") ] ].

(** The tree built by [_garanti_create_callback_xml] and, line for line the
    same, by [_garanti_create_query_transaction_vals]. *)
Definition gvps_request_tree (self : GarantiConnector) : element :=
  let root :=
    Element "GVPSRequest" None
      [ leaf "Mode" (Some (_garanti_get_mode (provider self)));
        leaf "Version" (Some "16");
        leaf "ChannelCode" (Some "") ] in
  _garanti_transaction_node self
    (_garanti_order_node self
       (_garanti_card_node
          (_garanti_customer_node self
             (_garanti_terminal_node self root)))).

Definition element_tag (e : element) : string :=
  match e with Element tag _ _ => tag end.

Definition element_text (e : element) : option string :=
  match e with Element _ text _ => text end.

Definition element_children (e : element) : list element :=
  match e with Element _ _ children => children end.

(** The characters that lxml takes in a text: tab, line feed, carriage
    return, and everything from the space on.  A NULL byte or another
    control character makes the assignment [node.text = value] raise
    [ValueError]. *)
Definition xml_char (c : ascii) : bool :=
  let n := Z.of_nat (nat_of_ascii c) in
  ((32 <=? n) || (n =? 9) || (n =? 10) || (n =? 13))%bool.

Fixpoint xml_compatible (s : string) : bool :=
  match s with
  | EmptyString => true
  | String c rest => (xml_char c && xml_compatible rest)%bool
  end.

(** [node.text = value] succeeds: [value] is [None] or an XML-compatible
    string. *)
Definition text_assignable (value : option string) : bool :=
  match value with
  | Some s => xml_compatible s
  | None => true
  end.

(** Every text assignment made while the tree was built succeeds. *)
Fixpoint xml_texts_ok (e : element) : bool :=
  match e with
  | Element _ text children =>
      (text_assignable text
       && (fix all_ok (l : list element) : bool :=
             match l with
             | [] => true
             | x :: rest => (xml_texts_ok x && all_ok rest)%bool
             end) children)%bool
  end.

(** The statements of [_garanti_create_callback_xml] up to the
    serialisation: the tree, or the [ValueError] of the first text that
    lxml refuses. *)
Definition build_gvps_request (self : GarantiConnector) : result element :=
  if xml_texts_ok (gvps_request_tree self)
  then Return (gvps_request_tree self)
  else Raise ValueError.

(** [GarantiConnector._garanti_create_callback_xml], decoded *)
Definition _garanti_create_callback_xml `{Serializers}
    (self : GarantiConnector) : result string :=
  (gvps_request <- build_gvps_request self ;;
   Return (etree_tostring gvps_request))%py.

(** [GarantiConnector._garanti_create_query_transaction_vals], decoded *)
Definition _garanti_create_query_transaction_vals `{Serializers}
    (self : GarantiConnector) : result string :=
  (gvps_request <- build_gvps_request self ;;
   Return (etree_tostring gvps_request))%py.

(** [e.iterdescendants()]: the elements below [e] in document order. *)
Fixpoint iterdescendants (e : element) : list element :=
  match e with
  | Element _ _ children =>
      (fix walk (l : list element) : list element :=
         match l with
         | [] => []
         | x :: rest => x :: iterdescendants x ++ walk rest
         end) children
  end.

Definition has_tag (tag : string) (e : element) : bool :=
  String.eqb (element_tag e) tag.

(** One step [/tag] of an ElementPath: the children with that tag. *)
Definition select_child (tag : string) (context : list element)
  : list element :=
  flat_map (fun e => filter (has_tag tag) (element_children e)) context.

(** The step [.//tag]: the descendants with that tag. *)
Definition select_descendant (tag : string) (context : list element)
  : list element :=
  flat_map (fun e => filter (has_tag tag) (iterdescendants e)) context.

(** [root.find(".//" + first + "/" + ... )]: the first element selected. *)
Definition find_path (root : element) (first : string) (steps : list string)
  : option element :=
  hd_error
    (fold_left (fun context tag => select_child tag context) steps
               (select_descendant first [root])).

(** [node.text] where [node] is the result of a [find]. *)
Definition text_of_found (node : option element) : result (option string) :=
  match node with
  | Some e => Return (element_text e)
  | None => Raise AttributeError
  end.

(** [etree.fromstring(resp.content)] *)
Definition fromstring (resp : http_response) : result element :=
  match content_xml resp with
  | Some root => Return root
  | None => Raise XMLSyntaxError
  end.

Definition msg_try_again_callback : string :=
  "Payment Error: Please try again.".

(** [a != b] between a node text (a [str] or [None]) and a literal. *)
Definition text_neq (t : option string) (lit : string) : bool :=
  match t with
  | Some s => negb (String.eqb s lit)
  | None => true
  end.

(** The second [try] block of [_garanti_payment_callback]. *)
Definition callback_parse (resp : http_response) : result (option string) :=
  (root <- fromstring resp ;;
   reason_code <-
     text_of_found (find_path root "Transaction" ["Response"; "ReasonCode"]) ;;
   message <-
     text_of_found (find_path root "Transaction" ["Response"; "Message"]) ;;
   if (text_neq reason_code "00" || text_neq message "Approved")%bool
   then text_of_found (find_path root "Transaction" ["Response"; "ErrorMsg"])
   else Return message)%py.

(** The request that posts a document to the provider. *)
Definition post_xml (self : GarantiConnector) (xml_data : string) : http_call :=
  {| call_method := "POST";
     call_url := _garanti_get_prov_url (provider self);
     call_params := [];
     call_data := Some xml_data |}.

(** The request posted by [_garanti_payment_callback] and by
    [_garanti_query_transaction] once the document of [self] is built. *)
Definition callback_call `{Serializers} (self : GarantiConnector) : http_call :=
  post_xml self (etree_tostring (gvps_request_tree self)).

(** [GarantiConnector._garanti_payment_callback].  The document is built
    before the first [try]: a [ValueError] of the build leaves the method
    with no request sent.  The value returned is a [str], or [None] when the
    text of the node returned is empty. *)
Definition _garanti_payment_callback `{Serializers}
    (self : GarantiConnector) (net : network)
    (notification_data : dict string) (log : audit_log)
  : GarantiConnector * audit_log * result (option string) :=
  let self' := with_notification_data self notification_data in
  match _garanti_create_callback_xml self' with
  | Raise e => (self', log, Raise e)
  | Return xml_data =>
      let '(log', r) :=
        _garanti_requests self' net (post_xml self' xml_data) log in
      match r with
      | Raise _ => (self', log', Return (Some msg_try_again_callback))
      | Return resp =>
          (self', log',
           try_except (callback_parse resp)
                      (fun _ => Return (Some msg_try_again_callback)))
      end
  end.

(** Truth value of a node text. *)
Definition text_truthy (t : option string) : bool :=
  match t with
  | Some s => negb (String.eqb s "")
  | None => false
  end.

(** The statements of [_garanti_query_transaction] after the request. *)
Definition query_parse (resp : http_response) : result pyval :=
  (root <- fromstring resp ;;
   let reason_code := find_path root "ReasonCode" [] in
   let error_msg := find_path root "ErrorMsg" [] in
   reason_text <- text_of_found reason_code ;;
   if text_truthy reason_text
   then
     error_text <- text_of_found error_msg ;;
     if text_truthy error_text
     then Return (pyval_of_option error_text)
     else Return (PyBool true)
   else Return (PyBool true))%py.

(** The notification that [_garanti_query_transaction] assigns to
    [self.notification_data] before anything else. *)
Definition query_notification_data (self : GarantiConnector) : dict string :=
  let p := provider self in
  [ ("oid", connector_reference self);
    ("clientid", garanti_terminal_id p);
    ("txnamount", PyStr.str_of_int (amount self));
    ("txncurrencycode",
     _garanti_get_currency_code p (currency_id self) (tx self));
    ("terminalprovuserid", garanti_prov_user p);
    ("terminaluserid", garanti_terminal_id p);
    ("terminalmerchantid", garanti_merchant_id p);
    ("txntype", "orderhistoryinq");
    ("txninstallmentcount", "");
    ("customeripaddress", "127.0.0.1");
    ("customeremailaddress", _get_partner_email self) ].

(** [GarantiConnector._garanti_query_transaction].  As in the callback, the
    document is built before the [try]. *)
Definition _garanti_query_transaction `{Serializers}
    (self : GarantiConnector) (net : network) (log : audit_log)
  : GarantiConnector * audit_log * result pyval :=
  let self' := with_notification_data self (query_notification_data self) in
  match _garanti_create_query_transaction_vals self' with
  | Raise e => (self', log, Raise e)
  | Return xml_data =>
      let '(log', r) :=
        _garanti_requests self' net (post_xml self' xml_data) log in
      match r with
      | Raise _ => (self', log', Raise (ValidationError msg_try_again_initiate))
      | Return resp => (self', log', query_parse resp)
      end
  end.

(* ===================================================================== *)
(** ** The initiate endpoint ([GarantiController.garanti_s2s_create_json_3ds]) *)
(* ===================================================================== *)

Module Controller.

(** The keyword arguments of the JSON route.  The three numeric ones are
    given by what the conversion applied to them yields:
    [int(kwargs.get("order_id"))], [int(kwargs.get("acquirer_id"))] and
    [float(kwargs.get("amount_total"))]. *)
Record kwargs : Type := {
  order_id : result Z;
  acquirer_id : result Z;
  amount_total : result Float.float;
  cc_number : option string;
  cc_cvc : option string;
  cc_holder_name : option string;
  cc_expiry_month : option string;
  cc_expiry_year : option string
}.

(** A [sale.order] record. *)
Record sale_order : Type := {
  so_id : Z;
  so_name : string;
  so_partner_id : Z;
  so_partner_lang : option string;
  garanti_payment_amount : Float.float;
  so_garanti_payment_currency_id : Z
}.

(** The values passed to [payment.transaction.create]. *)
Record transaction_vals : Type := {
  tv_amount : Float.float;
  tv_acquirer_id : Z;
  tv_acquirer_reference : string;
  tv_partner_id : Z;
  tv_sale_order_id : Z;
  tv_currency_id : Z;
  tv_state : string
}.

(** What the handler does to the world outside of it, in order. *)
Inductive event : Type :=
| TransactionCreated (vals : transaction_vals)
| PaymentRequestSent (amount : Float.float) (card_args : dict string)
                     (client_ip : option string)
| TransactionErrorSet (msg : string)
| PaymentTransactionAdded.

(** The collaborators of the handler that are outside the source files:
    the stored orders, the decimal precision of "account",
    [odoo.tools.float_compare], and two methods of the acquirer model. *)
Record environment : Type := {
  sale_orders : Z -> option sale_order;
  precision_get_account : Z;
  float_compare : Float.float -> Float.float -> Z -> Z;
  _garanti_validate_card_args : dict string -> option string;
  (** [acq._garanti_make_payment_request(tx, amount, card_args, client_ip)]:
      the call that reaches the provider over the network. *)
  acquirer_make_payment_request :
    transaction_vals -> Float.float -> dict string -> option string ->
    result (string * string);
  remote_addr : option string
}.

Definition set_item (d : dict string) (key : string) (v : option string)
  : dict string :=
  match v with
  | Some s => (d ++ [(key, s)])%list
  | None => d
  end.

(** The [card_args] dictionary; an entry whose value is [None] reads as
    [None] through [get], like an absent one. *)
Definition build_card_args (kw : kwargs) : dict string :=
  set_item (set_item (set_item (set_item (set_item []
    "card_number" (cc_number kw))
    "card_cvv" (cc_cvc kw))
    "card_name" (cc_holder_name kw))
    "card_valid_month" (cc_expiry_month kw))
    "card_valid_year" (cc_expiry_year kw).

Definition truthy (v : option string) : bool :=
  match v with
  | Some s => negb (String.eqb s "")
  | None => false
  end.

(** [float(kwargs.get("amount_total"))] under
    [except (ValueError, TypeError)]. *)
Definition parse_amount (kw : kwargs) : result Float.float :=
  match amount_total kw with
  | Raise ValueError | Raise TypeError =>
      Raise (ValidationError "Invalid amount")
  | r => r
  end.

(** [garanti_s2s_create_json_3ds].  The local variable [response_content]
    is [None] as long as it is unbound. *)
Definition garanti_s2s_create_json_3ds (env : environment) (kw : kwargs)
  : list event * result (string * string) :=
  match order_id kw with
  | Raise e => ([], Raise e)
  | Return oid =>
  if oid =? 0 then ([], Raise (ValidationError "Sale order not found"))
  else
  match sale_orders env oid with
  | None => ([], Raise MissingError)
  | Some order_sudo =>
  match acquirer_id kw with
  | Raise e => ([], Raise e)
  | Return acq_id =>
  let card_args := build_card_args kw in
  let card_error := _garanti_validate_card_args env card_args in
  if truthy card_error
  then ([], Raise (ValidationError (str_of_option card_error)))
  else
  match parse_amount kw with
  | Raise e => ([], Raise e)
  | Return amount =>
  let precision := precision_get_account env in
  if negb (float_compare env amount (garanti_payment_amount order_sudo)
                         precision =? 0)
  then ([], Raise (ValidationError "Invalid amount"))
  else
  let tx_sudo :=
    {| tv_amount := garanti_payment_amount order_sudo;
       tv_acquirer_id := acq_id;
       tv_acquirer_reference := so_name order_sudo;
       tv_partner_id := so_partner_id order_sudo;
       tv_sale_order_id := so_id order_sudo;
       tv_currency_id := so_garanti_payment_currency_id order_sudo;
       tv_state := "draft" |} in
  let client_ip := remote_addr env in
  let sent := [TransactionCreated tx_sudo;
               PaymentRequestSent amount card_args client_ip] in
  let '(events, response_content) :=
    match acquirer_make_payment_request env tx_sudo amount card_args
                                        client_ip with
    | Return content => (sent, Some content)
    | Raise _ =>
        ((sent ++
          [TransactionErrorSet "Payment Error. Please contact us."])%list,
         None)
    end in
  ((events ++ [PaymentTransactionAdded])%list,
   match response_content with
   | Some content => Return content
   | None => Raise (UnboundLocalError "response_content")
   end)
  end end end end.

End Controller.

(* ===================================================================== *)
(** ** Delivery records ([StockPicking.button_mail_send]) *)
(* ===================================================================== *)

Module StockPicking.

(** The fields of a [stock.picking] record that the operation reads or
    writes.  An empty [Char] field reads as [False], here [None]. *)
Record picking : Type := {
  partner_email : option string;
  sale_partner_email : option string;
  mail_sent : bool;
  delivery_state : option string;
  carrier_sms_enabled : bool
}.

(** What leaves the record: queued jobs. *)
Inductive job : Type :=
| MessagePostWithTemplate (template_id : Z)
| SmsNotification.

(** [a or b] on field values. *)
Definition py_or (a b : option string) : option string :=
  match a with
  | Some s => if String.eqb s "" then b else a
  | None => b
  end.

Definition truthy (v : option string) : bool :=
  match v with
  | Some s => negb (String.eqb s "")
  | None => false
  end.

(** The values a [write] can carry here. *)
Record write_vals : Type := {
  w_mail_sent : option bool;
  w_delivery_state : option string
}.

(** [_tracking_status_notification]; [carrier_sms_enabled] is the
    conjunction tested there. *)
Definition _tracking_status_notification (self : picking) : list job :=
  if carrier_sms_enabled self then [SmsNotification] else [].

(** [StockPicking.write], with the inherited [write] storing the values. *)
Definition write (self : picking) (vals : write_vals) : picking * list job :=
  let jobs :=
    match w_delivery_state vals with
    | Some st =>
        if (String.eqb st "in_transit"
            && negb (match delivery_state self with
                     | Some cur => String.eqb st cur
                     | None => false
                     end))%bool
        then _tracking_status_notification self
        else []
    | None => []
    end in
  ({| partner_email := partner_email self;
      sale_partner_email := sale_partner_email self;
      mail_sent := match w_mail_sent vals with
                   | Some b => b
                   | None => mail_sent self
                   end;
      delivery_state := match w_delivery_state vals with
                        | Some st => Some st
                        | None => delivery_state self
                        end;
      carrier_sms_enabled := carrier_sms_enabled self |},
   jobs).

(** [button_mail_send].  [mail_template] is what
    [self.env.ref("delivery_integration_base.delivery_mail_template")]
    finds: [None] when the reference does not resolve, and [ref] raises
    [ValueError]. *)
Definition button_mail_send (mail_template : option Z) (self : picking)
  : picking * list job * result bool :=
  match mail_template with
  | None => (self, [], Raise ValueError)
  | Some template_id =>
      let email := py_or (partner_email self) (sale_partner_email self) in
      if (truthy email && negb (mail_sent self))%bool
      then
        let '(self', jobs) :=
          write self {| w_mail_sent := Some true;
                        w_delivery_state := None |} in
        (self', (MessagePostWithTemplate template_id :: jobs)%list,
         Return true)
      else (self, [], Return true)
  end.

(** [n] invocations in a row, collecting the jobs. *)
Fixpoint press (mail_template : option Z) (n : nat) (self : picking)
  : picking * list job :=
  match n with
  | O => (self, [])
  | S k =>
      let '(self', jobs, _) := button_mail_send mail_template self in
      let '(self'', jobs') := press mail_template k self' in
      (self'', (jobs ++ jobs')%list)
  end.

End StockPicking.

(* ===================================================================== *)
(** ** Carriers: tracking notification and labels *)
(* ===================================================================== *)

Module Delivery.

(** The fields of a [delivery.carrier] record read by [stock.picking].  An
    unset selection or relation reads as [False], here [None]. *)
Record delivery_carrier : Type := {
  carrier_name : string;
  carrier_delivery_type : option string;
  send_sms_customer : bool;
  sms_service_id : option Z;
  default_printer_id : option Z;
  attach_barcode : bool
}.

(** The fields of a picking read by [carrier_get_label]. *)
Record picking : Type := {
  picking_id : Z;
  carrier_id : option delivery_carrier;
  delivery_type : option string
}.

(** The condition of [_tracking_status_notification] on [self.carrier_id];
    the fields of an empty [carrier_id] read as [False]. *)
Definition sms_wanted (carrier : option delivery_carrier) : bool :=
  match carrier with
  | None => false
  | Some c =>
      (negb (match carrier_delivery_type c with
             | None => true
             | Some t => String.eqb t "base_on_rule" || String.eqb t "fixed"
             end)
       && send_sms_customer c
       && match sms_service_id c with Some _ => true | None => false end)%bool
  end.

(** A [stock.picking] record of [StockPicking] with the given carrier. *)
Definition with_carrier (self : StockPicking.picking)
    (carrier : option delivery_carrier) : StockPicking.picking :=
  {| StockPicking.partner_email := StockPicking.partner_email self;
     StockPicking.sale_partner_email := StockPicking.sale_partner_email self;
     StockPicking.mail_sent := StockPicking.mail_sent self;
     StockPicking.delivery_state := StockPicking.delivery_state self;
     StockPicking.carrier_sms_enabled := sms_wanted carrier |}.

(** The calls [self._attach_barcode(data)] and [self._print_barcode(data)],
    with the record set they are made on. *)
Inductive label_call : Type :=
| AttachBarcode (self : list picking) (data : string)
| PrintBarcode (self : list picking) (data : string).

Definition label_call_records (c : label_call) : list picking :=
  match c with
  | AttachBarcode self _ => self
  | PrintBarcode self _ => self
  end.

(** What [carrier_get_label] finds around it: the methods the carrier model
    defines, what a provider's label method answers for a picking, and how a
    call of [_attach_barcode] or [_print_barcode] ends. *)
Record environment : Type := {
  carrier_methods : list string;
  provider_get_label : string -> delivery_carrier -> picking -> result string;
  label_call_outcome : label_call -> result unit
}.

(** ["%s" % value] for a selection field. *)
Definition str_of_field (v : option string) : string :=
  match v with
  | Some s => s
  | None => "False"
  end.

Definition hasattr (env : environment) (method : string) : bool :=
  existsb (String.eqb method) (carrier_methods env).

(** [self.filtered("carrier_id")], each picking with its
    [picking.carrier_id]. *)
Definition filtered_carrier_id (self : list picking)
  : list (picking * delivery_carrier) :=
  flat_map (fun p => match carrier_id p with
                     | Some carrier => [(p, carrier)]
                     | None => []
                     end) self.

(** The test of the loop: the method exists and a printer is set. *)
Definition ready (env : environment) (todo : picking * delivery_carrier)
  : bool :=
  (hasattr env (str_of_field (delivery_type (fst todo))
                ++ "_carrier_get_label")
   && match default_printer_id (snd todo) with
      | Some _ => true
      | None => false
      end)%bool.

Definition no_printer (carrier : delivery_carrier) : exn :=
  ValidationError
    ("No default printer defined for the carrier " ++ carrier_name carrier).

(** The loop of [carrier_get_label] over the pickings left to handle. *)
Fixpoint label_loop (env : environment) (self : list picking)
    (todo : list (picking * delivery_carrier))
  : list label_call * result unit :=
  match todo with
  | [] => ([], Return tt)
  | (picking, carrier) :: rest =>
      let method :=
        str_of_field (delivery_type picking) ++ "_carrier_get_label" in
      if ready env (picking, carrier)
      then
        match provider_get_label env method carrier picking with
        | Raise e => ([], Raise e)
        | Return data =>
            let call := if attach_barcode carrier
                        then AttachBarcode self data
                        else PrintBarcode self data in
            match label_call_outcome env call with
            | Raise e => ([call], Raise e)
            | Return _ =>
                let '(calls, r) := label_loop env self rest in
                (call :: calls, r)
            end
        end
      else ([], Raise (no_printer carrier))
  end.

(** [carrier_get_label] *)
Definition carrier_get_label (env : environment) (self : list picking)
  : list label_call * result unit :=
  label_loop env self (filtered_carrier_id self).

End Delivery.

(* ===================================================================== *)
(** ** The return endpoint *)
(* ===================================================================== *)

Module Return3DS.

(** What the handler answers: a redirect or a page text. *)
Inductive response : Type :=
| Redirect (location : string)
| Body (text : string).

(** What the handler finds around it: [form_feedback] gives the
    [sale_order_ids] of the transaction it found, or raises; [search_name]
    is [sale.order].search([("name", "=", name)]); [get_portal_url] is the
    method of that name on a set of orders. *)
Record environment : Type := {
  form_feedback : dict string -> result (list Z);
  search_name : string -> list Z;
  get_portal_url : list Z -> result string
}.

Definition error_page : string :=
  "An error occurred. Please contact the administrator.".

(** The [try] block: the feedback, and the check of [tx.sale_order_ids]. *)
Definition feedback_orders (env : environment) (kwargs : dict string)
  : result (list Z) :=
  (sale_order_ids <- form_feedback env kwargs ;;
   match sale_order_ids with
   | [] => Raise (ValidationError "Transaction not completed")
   | _ :: _ => Return sale_order_ids
   end)%py.

(** The [except Exception] block. *)
Definition on_failure (env : environment) (kwargs : dict string)
  : result response :=
  match dict_get kwargs "orderid" with
  | Some name =>
      if negb (String.eqb name "")
      then
        match search_name env name with
        | [] => Return (Body error_page)
        | order =>
            (location <- get_portal_url env order ;;
             Return (Redirect location))%py
        end
      else Return (Body error_page)
  | None => Return (Body error_page)
  end.

(** [garanti_return_from_3ds_auth] *)
Definition garanti_return_from_3ds_auth (env : environment)
    (kwargs : dict string) : result response :=
  match feedback_orders env kwargs with
  | Raise _ => on_failure env kwargs
  | Return sale_order_ids =>
      (location <- get_portal_url env (firstn 1 sale_order_ids) ;;
       Return (Redirect location))%py
  end.

End Return3DS.

(* ===================================================================== *)
(** ** The specification's wording, for comparison with the code *)
(* ===================================================================== *)

(** The 3-D Secure digest as the specification words it: the seven fields,
    each of them once, in this order. *)
Definition compute3DHash
    (terminalId orderRef amount returnUrl txnType storeKey securityData : string)
  : string :=
  sha1_hex_upper
    (terminalId ++ orderRef ++ amount ++ returnUrl ++ txnType ++ storeKey
     ++ securityData).

(** The amount conversion as the specification words it: the exact value of
    the float, rounded half away from zero at 2 decimals, as an integer
    number of minor units. *)
Definition toMinorUnits_half_away (x : Float.float) : option Z :=
  match x with
  | S754_zero _ => Some 0
  | S754_finite s m e =>
      Some (cond_Zopp s
              (if 0 <=? e then 100 * Zpos m * 2 ^ e
               else (2 * 100 * Zpos m + 2 ^ (- e)) / (2 * 2 ^ (- e))))
  | _ => None
  end.

(** A text holds a run of 16 digits somewhere. *)
Definition has_16_digits (s : string) : bool :=
  match re_search_16_digits s with
  | Some _ => true
  | None => false
  end.

Definition first_is_digit (s : string) : bool :=
  match s with
  | EmptyString => false
  | String c _ => PyStr.is_digit c
  end.

Fixpoint last_is_digit (s : string) : bool :=
  match s with
  | EmptyString => false
  | String c EmptyString => PyStr.is_digit c
  | String _ rest => last_is_digit rest
  end.

(** The characters of a hexadecimal digest in upper case. *)
Fixpoint is_upper_hex (s : string) : bool :=
  match s with
  | EmptyString => true
  | String c rest =>
      let n := nat_of_ascii c in
      ((((48 <=? n)%nat && (n <=? 57)%nat)
        || ((65 <=? n)%nat && (n <=? 70)%nat))
       && is_upper_hex rest)%bool
  end.

(* ===================================================================== *)
(** ** Worked inputs *)
(* ===================================================================== *)

(** The binary64 numbers nearest to 19.995, 19.994 and 0.125. *)
Definition float_19_995 : Float.float :=
  S754_finite false 5628092159329567 (-48).
Definition float_19_994 : Float.float :=
  S754_finite false 5627810684352856 (-48).
Definition float_0_125 : Float.float :=
  S754_finite false 4503599627370496 (-55).

Definition sample_transaction : transaction :=
  {| reference := "SO042-1";
     partner_email := "buyer@example.com,second@example.com";
     partner_lang := Some "tr_TR";
     garanti_payment_currency_id := 31;
     garanti_secure3d_hash := None;
     tx_state := "draft" |}.

Definition sample_acquirer : acquirer :=
  {| garanti_terminal_id := "30691298";
     garanti_prov_user := "PROVAUT";
     garanti_prov_password := "123qweASD/";
     garanti_merchant_id := "7000679";
     garanti_store_key := "12345678";
     debug_logging := true;
     _garanti_get_api_url := "https://sanalposprov.example/servlet/gt3dengine";
     _garanti_get_prov_url := "https://sanalposprov.example/VPServlet";
     _garanti_get_return_url := "https://shop.example/payment/garanti/return";
     _garanti_get_mode := "TEST";
     _garanti_get_company_name := "Shop";
     _garanti_get_currency_code := fun _ _ => "949";
     _garanti_format_card_number := pyval_of_option |}.

Definition sample_connector_for_year (year : string) : GarantiConnector :=
  {| url := _garanti_get_api_url sample_acquirer;
     provider := sample_acquirer;
     tx := sample_transaction;
     amount := 2000;
     currency_id := 31;
     card_args := [ ("card_number", "4111111111111111"); ("card_cvv", "123");
                    ("card_name", "A BUYER"); ("card_valid_month", "12");
                    ("card_valid_year", year) ];
     client_ip := "203.0.113.7";
     timeout := 10;
     _debug := true;
     notification_data := [] |}.

Definition sample_connector : GarantiConnector :=
  sample_connector_for_year "2030".

(** A stand-in for the two serialisers in the worked examples: element and
    tag names only.  No statement depends on what they print. *)
#[local] Instance names_only : Serializers :=
  {| bs4_str := fun s =>
       String.concat " "
         (map (fun n => match n with
                        | Tag name _ _ => name
                        | NavigableString t => t
                        end) s);
     etree_tostring := fun e => element_tag e |}.

Definition response_of (status : Z) (text : string) (xml : option element)
    (html : soup) : http_response :=
  {| status_code := status;
     resp_text := text;
     request := {| req_method := "POST";
                   req_url := "https://sanalposprov.example/VPServlet";
                   req_body := Some "<GVPSRequest/>" |};
     content_xml := xml;
     text_soup := html |}.

(** A well-formed decline that has no [ErrorMsg] node. *)
Definition declined_without_error_node : http_response :=
  response_of 200
    "<GVPSResponse><Transaction><Response><ReasonCode>05</ReasonCode><Message>Declined</Message></Response></Transaction></GVPSResponse>"
    (Some (Element "GVPSResponse" None
             [ Element "Transaction" None
                 [ Element "Response" None
                     [ leaf "ReasonCode" (Some "05");
                       leaf "Message" (Some "Declined") ] ] ]))
    [].

(** An approval. *)
Definition approved_response : http_response :=
  response_of 200
    "<GVPSResponse><Transaction><Response><ReasonCode>00</ReasonCode><Message>Approved</Message><ErrorMsg></ErrorMsg></Response></Transaction></GVPSResponse>"
    (Some (Element "GVPSResponse" None
             [ Element "Transaction" None
                 [ Element "Response" None
                     [ leaf "ReasonCode" (Some "00");
                       leaf "Message" (Some "Approved");
                       leaf "ErrorMsg" None ] ] ]))
    [].

(** A body that is not XML. *)
Definition malformed_response : http_response :=
  response_of 200 "<GVPSResponse><Transaction>" None [].

(** The page returned when the 3-D Secure challenge failed. *)
Definition not_authenticated_page : http_response :=
  response_of 200
    "<html><body><input name='mderrormessage' value='Not Authenticated'></body></html>"
    None
    [ Tag "html" []
        [ Tag "body" []
            [ Tag "input" [ ("name", "mderrormessage");
                            ("value", "Not Authenticated") ] [] ] ] ].

(** A request whose text holds two different card numbers. *)
Definition two_card_numbers : http_response :=
  {| status_code := 200;
     resp_text := "ok";
     request := {| req_method := "POST";
                   req_url := "https://sanalposprov.example/servlet/gt3dengine";
                   req_body :=
                     Some "cardnumber=4111111111111111&other=5500000000000004" |};
     content_xml := None;
     text_soup := [] |}.

(** A stand-in for [odoo.tools.float_compare] in the worked examples: the
    two amounts are compared after rounding at [precision] decimals. *)
Definition compare_rounded (x y : Float.float) (precision : Z) : Z :=
  let scale := binary_normalize Float.prec Float.emax (10 ^ precision) 0 false in
  let units v := Float.int_of_float (Float.round0 (Float.mul v scale)) in
  match units x, units y with
  | Return a, Return b => if a <? b then -1 else if a =? b then 0 else 1
  | _, _ => 1
  end.

Definition sample_order : Controller.sale_order :=
  {| Controller.so_id := 42;
     Controller.so_name := "SO042";
     Controller.so_partner_id := 7;
     Controller.so_partner_lang := Some "tr_TR";
     Controller.garanti_payment_amount := float_19_995;
     Controller.so_garanti_payment_currency_id := 31 |}.

(** An environment in which the provider cannot be reached. *)
Definition sample_environment : Controller.environment :=
  {| Controller.sale_orders := fun id => if id =? 42 then Some sample_order else None;
     Controller.precision_get_account := 2;
     Controller.float_compare := compare_rounded;
     Controller._garanti_validate_card_args := fun _ => None;
     Controller.acquirer_make_payment_request :=
       fun _ _ _ _ => Raise (ValidationError msg_try_again_initiate);
     Controller.remote_addr := Some "203.0.113.7" |}.

Definition sample_kwargs (amount_total : Float.float) : Controller.kwargs :=
  {| Controller.order_id := Return 42;
     Controller.acquirer_id := Return 5;
     Controller.amount_total := Return amount_total;
     Controller.cc_number := Some "4111111111111111";
     Controller.cc_cvc := Some "123";
     Controller.cc_holder_name := Some "A BUYER";
     Controller.cc_expiry_month := Some "12";
     Controller.cc_expiry_year := Some "2030" |}.

(** The transaction that the handler creates for an order. *)
Definition created_transaction (order : Controller.sale_order) (acq_id : Z)
  : Controller.transaction_vals :=
  {| Controller.tv_amount := Controller.garanti_payment_amount order;
     Controller.tv_acquirer_id := acq_id;
     Controller.tv_acquirer_reference := Controller.so_name order;
     Controller.tv_partner_id := Controller.so_partner_id order;
     Controller.tv_sale_order_id := Controller.so_id order;
     Controller.tv_currency_id := Controller.so_garanti_payment_currency_id order;
     Controller.tv_state := "draft" |}.

Definition sample_picking : StockPicking.picking :=
  {| StockPicking.partner_email := None;
     StockPicking.sale_partner_email := Some "buyer@example.com";
     StockPicking.mail_sent := false;
     StockPicking.delivery_state := Some "in_transit";
     StockPicking.carrier_sms_enabled := true |}.

(** The largest finite binary64 number. *)
Definition float_max : Float.float :=
  S754_finite false 9007199254740991 971.

(** The negative of a float, [-x]. *)
Definition float_neg (x : Float.float) : Float.float := SFopp x.

(** [sample_connector] with another terminal id. *)
Definition sample_connector_with_terminal (terminal_id : string)
  : GarantiConnector :=
  {| url := url sample_connector;
     provider :=
       {| garanti_terminal_id := terminal_id;
          garanti_prov_user := garanti_prov_user sample_acquirer;
          garanti_prov_password := garanti_prov_password sample_acquirer;
          garanti_merchant_id := garanti_merchant_id sample_acquirer;
          garanti_store_key := garanti_store_key sample_acquirer;
          debug_logging := debug_logging sample_acquirer;
          _garanti_get_api_url := _garanti_get_api_url sample_acquirer;
          _garanti_get_prov_url := _garanti_get_prov_url sample_acquirer;
          _garanti_get_return_url := _garanti_get_return_url sample_acquirer;
          _garanti_get_mode := _garanti_get_mode sample_acquirer;
          _garanti_get_company_name := _garanti_get_company_name sample_acquirer;
          _garanti_get_currency_code :=
            _garanti_get_currency_code sample_acquirer;
          _garanti_format_card_number :=
            _garanti_format_card_number sample_acquirer |};
     tx := tx sample_connector;
     amount := amount sample_connector;
     currency_id := currency_id sample_connector;
     card_args := card_args sample_connector;
     client_ip := client_ip sample_connector;
     timeout := timeout sample_connector;
     _debug := _debug sample_connector;
     notification_data := notification_data sample_connector |}.

(** The first character is a sign, which [zfill] keeps in front. *)
Definition starts_with_sign (s : string) : bool :=
  match s with
  | String c _ => (Ascii.eqb c "+" || Ascii.eqb c "-")%bool
  | EmptyString => false
  end.

(** The keys of a dictionary display are pairwise different. *)
Fixpoint keys_distinct (keys : list string) : bool :=
  match keys with
  | [] => true
  | k :: rest => (negb (existsb (String.eqb k) rest) && keys_distinct rest)%bool
  end.


(** The page that carries the 3-D Secure challenge form. *)
Definition challenge_form_page : http_response :=
  response_of 200
    "<html><body><form id='webform0' action='https://acs.example/'><input name='PaReq' value='x'></form></body></html>"
    None
    [ Tag "html" []
        [ Tag "body" []
            [ Tag "form" [ ("id", "webform0");
                           ("action", "https://acs.example/") ]
                [ Tag "input" [ ("name", "PaReq"); ("value", "x") ] [] ] ] ] ].

(** A page with both an error field and the challenge form. *)
Definition error_and_form_page : http_response :=
  response_of 200
    "<html><body><form id='webform0'><input name='mderrormessage' value='Declined'></form></body></html>"
    None
    [ Tag "html" []
        [ Tag "body" []
            [ Tag "form" [ ("id", "webform0") ]
                [ Tag "input" [ ("name", "mderrormessage");
                                ("value", "Declined") ] [] ] ] ] ].

(** An answer of the provider with an error status. *)
Definition server_error_response : http_response :=
  response_of 503 "Service Unavailable" None
    [ NavigableString "Service Unavailable" ].


(** A decline that carries the provider's error text. *)
Definition declined_with_error_text : http_response :=
  response_of 200
    "<GVPSResponse><Transaction><Response><ReasonCode>00</ReasonCode><Message>Declined</Message><ErrorMsg>Insufficient funds</ErrorMsg></Response></Transaction></GVPSResponse>"
    (Some (Element "GVPSResponse" None
             [ Element "Transaction" None
                 [ Element "Response" None
                     [ leaf "ReasonCode" (Some "00");
                       leaf "Message" (Some "Declined");
                       leaf "ErrorMsg" (Some "Insufficient funds") ] ] ]))
    [].

(** [sample_connector] holding a notification. *)
Definition sample_connector_notified (nd : dict string) : GarantiConnector :=
  with_notification_data sample_connector nd.


(** The text found under a path of the request document. *)
Definition request_text (self : GarantiConnector) (first : string)
    (steps : list string) : option (option string) :=
  option_map element_text (find_path (gvps_request_tree self) first steps).


(** [sample_kwargs] with any outcome of [float(kwargs.get("amount_total"))]. *)
Definition sample_kwargs_with (amount_total : result Float.float)
  : Controller.kwargs :=
  {| Controller.order_id := Return 42;
     Controller.acquirer_id := Return 5;
     Controller.amount_total := amount_total;
     Controller.cc_number := Some "4111111111111111";
     Controller.cc_cvc := Some "123";
     Controller.cc_holder_name := Some "A BUYER";
     Controller.cc_expiry_month := Some "12";
     Controller.cc_expiry_year := Some "2030" |}.


(** A decline whose error text reads like the message of an approval. *)
Definition declined_reading_approved : http_response :=
  response_of 200
    "<GVPSResponse><Transaction><Response><ReasonCode>05</ReasonCode><Message>Declined</Message><ErrorMsg>Approved</ErrorMsg></Response></Transaction></GVPSResponse>"
    (Some (Element "GVPSResponse" None
             [ Element "Transaction" None
                 [ Element "Response" None
                     [ leaf "ReasonCode" (Some "05");
                       leaf "Message" (Some "Declined");
                       leaf "ErrorMsg" (Some "Approved") ] ] ]))
    [].

(** The text of the first node under [.//Transaction/Response/<name>] of an
    answer. *)
Definition answer_text (resp : http_response) (name : string)
  : option (option string) :=
  match content_xml resp with
  | Some root =>
      option_map element_text
        (find_path root "Transaction" ["Response"; name])
  | None => None
  end.

(** A notification whose order id holds the control character U+0001. *)
Definition notification_with_control_character : dict string :=
  [ ("oid", String (ascii_of_nat 1) "") ].


(** The answer to a payment request whose card holder name is a run of 16
    digits: the parameters travel in the URL, the name before the number. *)
Definition holder_name_of_digits : http_response :=
  {| status_code := 200;
     resp_text := "ok";
     request :=
       {| req_method := "POST";
          req_url :=
            "https://sanalposprov.example/servlet/gt3dengine?refreshtime=0&paymenttype=creditcard&secure3dsecuritylevel=3D&txntype=sales&cardname=1234567890123456&cardnumber=4111111111111111&cardexpiredatemonth=12&cardexpiredateyear=30&cardcvv2=123";
          req_body := None |};
     content_xml := None;
     text_soup := [] |}.

(** The text logged for the request of an exchange, with debugging on. *)
Definition logged_request (response : http_response) : string :=
  hd "" (map fst (fst (_process_http_request sample_connector response []))).


(** [sample_environment] with an acquirer that rejects the card
    arguments. *)
Definition rejecting_environment : Controller.environment :=
  {| Controller.sale_orders := Controller.sale_orders sample_environment;
     Controller.precision_get_account :=
       Controller.precision_get_account sample_environment;
     Controller.float_compare := Controller.float_compare sample_environment;
     Controller._garanti_validate_card_args :=
       fun _ => Some "Card number is not valid.";
     Controller.acquirer_make_payment_request :=
       Controller.acquirer_make_payment_request sample_environment;
     Controller.remote_addr := Controller.remote_addr sample_environment |}.


(* ===================================================================== *)
(** ** Digests *)
(* ===================================================================== *)

Lemma nibble_range (x : Z) : 0 <= Z.land x 15 < 16.
Proof.
  change 15 with (Z.ones 4).
  rewrite Z.land_ones by lia.
  apply Z.mod_pos_bound. reflexivity.
Qed.

Lemma upper_hex_digit (x : Z) :
  is_upper_hex (String (PyStr.upper_char (Sha1.hex_digit (Z.land x 15))) "")
  = true.
Proof.
  pose proof (nibble_range x) as R.
  assert (E : exists k : nat, (k < 16)%nat /\ Z.land x 15 = Z.of_nat k).
  { exists (Z.to_nat (Z.land x 15)). split; lia. }
  destruct E as (k & Hk & ->).
  do 16 (destruct k as [|k]; [reflexivity|]).
  lia.
Qed.

Lemma is_upper_hex_app (s t : string) :
  is_upper_hex (s ++ t) = (is_upper_hex s && is_upper_hex t)%bool.
Proof.
  induction s as [|c s IH]; simpl; [reflexivity|].
  rewrite IH. apply andb_assoc.
Qed.

Lemma upper_app (s t : string) :
  PyStr.upper (s ++ t) = PyStr.upper s ++ PyStr.upper t.
Proof.
  induction s as [|c s IH]; simpl; [reflexivity|]. now rewrite IH.
Qed.

Lemma upper_length (s : string) : String.length (PyStr.upper s) = String.length s.
Proof.
  induction s as [|c s IH]; simpl; [reflexivity|]. now rewrite IH.
Qed.

Lemma string_length_app (s t : string) :
  String.length (s ++ t) = (String.length s + String.length t)%nat.
Proof.
  induction s as [|c s IH]; simpl; [reflexivity|]. now rewrite IH.
Qed.

Lemma hex_word_upper (w : Z) :
  is_upper_hex (PyStr.upper (Sha1.hex_word w)) = true
  /\ String.length (Sha1.hex_word w) = 8%nat.
Proof.
  split; [|reflexivity].
  unfold Sha1.hex_word. cbn [map Sha1.string_of_chars PyStr.upper].
  repeat match goal with
  | |- is_upper_hex (String ?c ?rest) = true =>
      change (String c rest) with (String c "" ++ rest);
      rewrite is_upper_hex_app; apply andb_true_intro; split;
      [apply upper_hex_digit|]
  end.
  reflexivity.
Qed.

(** Every digest of the connector is 40 upper-case hexadecimal digits. *)
Lemma sha1_hex_upper_shape (s : string) :
  String.length (sha1_hex_upper s) = 40%nat
  /\ is_upper_hex (sha1_hex_upper s) = true.
Proof.
  unfold sha1_hex_upper, Sha1.hexdigest.
  destruct (Sha1.digest (PyStr.encode_utf8 s)) as [a b c d e].
  split.
  - rewrite upper_length. repeat rewrite string_length_app.
    repeat rewrite (proj2 (hex_word_upper _)). reflexivity.
  - repeat rewrite upper_app. repeat rewrite is_upper_hex_app.
    repeat rewrite (proj1 (hex_word_upper _)). reflexivity.
Qed.

(** C1, as stated, fails: with the fields of [sample_connector] the digest
    that the connector computes differs from the digest of the seven fields
    taken once each. *)
Lemma secure3d_hash_differs_from_seven_fields :
  String.eqb
    (snd (_garanti_create_secure3d_hash sample_connector))
    (compute3DHash
       (garanti_terminal_id (provider sample_connector))
       (connector_reference sample_connector)
       (PyStr.str_of_int (amount sample_connector))
       (_garanti_get_return_url (provider sample_connector))
       "sales"
       (garanti_store_key (provider sample_connector))
       (_garanti_compute_security_data sample_connector))
  = false
  /\ snd (_garanti_create_secure3d_hash sample_connector)
     = "7CFC71E3255642A9882479B703F8B8BCCCB6193F".
Proof. split; vm_compute; reflexivity. Qed.

(** C1, amended: for every provider configuration and transaction the
    3-D Secure hash is the upper-case hexadecimal SHA-1 digest (40 digits)
    of the concatenation, in this order, of terminal id, provider order
    reference, amount in minor units, return URL (as success URL), return
    URL again (as error URL), transaction type ["sales"], store key and
    security data, where the security data is the digest of the provisioning
    password followed by the terminal id padded with zeros to 9 characters;
    the value is also saved on the transaction. *)
Theorem secure3d_hash_is_sha1_of_fields (self : GarantiConnector) :
  let p := provider self in
  let h := snd (_garanti_create_secure3d_hash self) in
  h = sha1_hex_upper
        (String.concat ""
           [ garanti_terminal_id p;
             connector_reference self;
             PyStr.str_of_int (amount self);
             _garanti_get_return_url p;
             _garanti_get_return_url p;
             "sales";
             garanti_store_key p;
             sha1_hex_upper
               (garanti_prov_password p
                ++ PyStr.zfill (garanti_terminal_id p) 9) ])
  /\ garanti_secure3d_hash (tx (fst (_garanti_create_secure3d_hash self)))
     = Some h
  /\ String.length h = 40%nat
  /\ is_upper_hex h = true.
Proof.
  cbv zeta. unfold _garanti_create_secure3d_hash. cbn [fst snd].
  split; [|split; [|split]].
  - unfold hash_strings, _garanti_compute_security_data. cbn [String.concat].
    reflexivity.
  - reflexivity.
  - apply (proj1 (sha1_hex_upper_shape _)).
  - apply (proj2 (sha1_hex_upper_shape _)).
Qed.

(* ===================================================================== *)
(** ** Amount conversion *)
(* ===================================================================== *)

(** The worked floats are the binary64 numbers nearest to the decimal
    literals: the error is at most half a unit in the last place. *)
Lemma worked_floats_are_nearest :
  Z.abs (1000 * 5628092159329567 - 19995 * 2 ^ 48) <= 500
  /\ Z.abs (1000 * 5627810684352856 - 19994 * 2 ^ 48) <= 500
  /\ 8 * 4503599627370496 = 2 ^ 55
  /\ valid_binary Float.prec Float.emax float_19_995 = true
  /\ valid_binary Float.prec Float.emax float_19_994 = true
  /\ valid_binary Float.prec Float.emax float_0_125 = true
  /\ valid_binary Float.prec Float.emax Float.hundred = true.
Proof. repeat split; vm_compute; try reflexivity; discriminate. Qed.

Lemma nearest_even_spec (m k : Z) :
  0 < k -> 0 <= m ->
  let n := Float.nearest_even m k in
  0 <= n
  /\ 2 * Z.abs (n * 2 ^ k - m) <= 2 ^ k
  /\ (2 * Z.abs (n * 2 ^ k - m) = 2 ^ k -> Z.even n = true).
Proof.
  intros Hk Hm. cbv zeta. unfold Float.nearest_even.
  assert (Hd : 0 < 2 ^ k) by (apply Z.pow_pos_nonneg; lia).
  assert (Hh : 2 ^ k = 2 * 2 ^ (k - 1)).
  { replace k with (Z.succ (k - 1)) at 1 by lia.
    apply Z.pow_succ_r. lia. }
  pose proof (Z.div_mod m (2 ^ k) ltac:(lia)) as E.
  pose proof (Z.mod_pos_bound m (2 ^ k) Hd) as B.
  assert (Hq : 0 <= m / 2 ^ k) by (apply Z.div_pos; lia).
  set (q := m / 2 ^ k) in *. set (r := m mod 2 ^ k) in *.
  set (d := 2 ^ k) in *. set (h := 2 ^ (k - 1)) in *.
  assert (Eq : q * d - m = - r) by lia.
  assert (Eq1 : (q + 1) * d - m = d - r) by lia.
  destruct (Z.ltb_spec r h) as [L|L].
  - rewrite Eq. split; [lia|]. split; lia.
  - destruct (Z.ltb_spec h r) as [G|G].
    + rewrite Eq1. split; [lia|]. split; lia.
    + assert (r = h) by lia. subst r.
      destruct (Z.even q) eqn:Ev.
      * rewrite Eq. split; [lia|]. split; [lia|]. intros _. exact Ev.
      * rewrite Eq1. split; [lia|]. split; [lia|]. intros _.
        rewrite Z.add_1_r, Z.even_succ, <- Z.negb_even, Ev. reflexivity.
Qed.

(** C3, as stated, fails: 0.125 is exactly representable, so 12.5 is a
    true tie; the code returns 12 where rounding half away from zero at 2
    decimals gives 13. *)
Lemma get_amount_tie_goes_to_even :
  _get_amount float_0_125 = Return 12
  /\ toMinorUnits_half_away float_0_125 = Some 13.
Proof. split; vm_compute; reflexivity. Qed.

(** C3, amended: [_get_amount] multiplies the float by 100 in binary64
    arithmetic and returns the integer nearest to that product, with ties
    going to the even integer; it never truncates (the result is within one
    half of the product); a zero product gives 0.  In particular toMinorUnits(19.995) = 2000 and
    toMinorUnits(19.994) = 1999. *)
Theorem get_amount_rounds_product_half_even :
  (forall (amount : Float.float) (s : bool) (m : positive) (e : Z),
      Float.mul amount Float.hundred = S754_finite s m e ->
      exists k : Z,
        _get_amount amount = Return (cond_Zopp s k)
        /\ 0 <= k
        /\ (0 <= e -> k = Zpos m * 2 ^ e)
        /\ (e < 0 ->
            2 * Z.abs (k * 2 ^ (- e) - Zpos m) <= 2 ^ (- e)
            /\ (2 * Z.abs (k * 2 ^ (- e) - Zpos m) = 2 ^ (- e) ->
                Z.even k = true)))
  /\ (forall (amount : Float.float) (s : bool),
         Float.mul amount Float.hundred = S754_zero s ->
         _get_amount amount = Return 0)
  /\ _get_amount float_19_995 = Return 2000
  /\ _get_amount float_19_994 = Return 1999.
Proof.
  split; [|split; [|split; vm_compute; reflexivity]].
  2:{ intros amount s H. unfold _get_amount. rewrite H. reflexivity. }
  intros amount s m e H. unfold _get_amount. rewrite H.
  unfold Float.round0.
  destruct (Z.leb_spec 0 e) as [He|He].
  - exists (Zpos m * 2 ^ e). cbn [Float.int_of_float].
    destruct (Z.leb_spec 0 e); [|lia].
    split; [reflexivity|]. split; [|split; [reflexivity|lia]].
    apply Z.mul_nonneg_nonneg; [lia|]. apply Z.pow_nonneg. lia.
  - pose proof (nearest_even_spec (Zpos m) (- e) ltac:(lia) ltac:(lia)) as N.
    cbv zeta in N. destruct N as (N0 & N1 & N2).
    exists (Float.nearest_even (Zpos m) (- e)).
    split.
    + destruct (Float.nearest_even (Zpos m) (- e)) as [|n|n].
      * cbn. destruct s; reflexivity.
      * cbn [Float.int_of_float]. cbn [Z.leb Z.compare].
        rewrite Z.pow_0_r, Z.mul_1_r. reflexivity.
      * lia.
    + split; [exact N0|]. split; [lia|]. intros _. split; assumption.
Qed.

(** The amended C3 at 19.995: the product is the float 1999.5, the tie goes
    to the even integer 2000. *)
Lemma get_amount_rounds_product_half_even_witness :
  exists k : Z,
    _get_amount float_19_995 = Return (cond_Zopp false k)
    /\ 0 <= k
    /\ (0 <= -42 -> k = 8793893998952448 * 2 ^ (-42))
    /\ (-42 < 0 ->
        2 * Z.abs (k * 2 ^ (- -42) - 8793893998952448) <= 2 ^ (- -42)
        /\ (2 * Z.abs (k * 2 ^ (- -42) - 8793893998952448) = 2 ^ (- -42) ->
            Z.even k = true)).
Proof.
  apply (proj1 get_amount_rounds_product_half_even
               float_19_995 false 8793893998952448%positive (-42)).
  vm_compute. reflexivity.
Defined.

(* ===================================================================== *)
(** ** Redaction in the audit log *)
(* ===================================================================== *)

Lemma digits_prefix_length (n : nat) (s : string) :
  digits_prefix n s = true -> (n <= String.length s)%nat.
Proof.
  revert s. induction n as [|n IH]; intros s H; [apply Nat.le_0_l|].
  destruct s as [|c s]; [discriminate|].
  simpl in H. apply andb_prop in H. destruct H as [_ H].
  simpl. apply le_n_S, IH, H.
Qed.

Lemma digits_prefix_first (n : nat) (s : string) :
  digits_prefix (S n) s = true -> first_is_digit s = true.
Proof.
  destruct s as [|c s]; [discriminate|].
  simpl. intros H. apply andb_prop in H. apply H.
Qed.

(** A run of digits that starts inside [p] either ends inside [p] or covers
    the rest of [p] and goes on after it. *)
Lemma digits_prefix_app (n : nat) (p rest : string) :
  digits_prefix n (p ++ rest) = true ->
  digits_prefix n p = true
  \/ (digits_prefix (String.length p) p = true
      /\ (String.length p < n)%nat
      /\ digits_prefix (n - String.length p) rest = true).
Proof.
  revert p. induction n as [|n IH]; intros p H; [left; reflexivity|].
  destruct p as [|c p].
  - right. simpl in *. repeat split; [apply Nat.lt_0_succ|exact H].
  - simpl in H. apply andb_prop in H. destruct H as [Hc H].
    destruct (IH p H) as [L|(A & B & C)].
    + left. simpl. rewrite Hc, L. reflexivity.
    + right. simpl. rewrite Hc, A. repeat split; [lia|exact C].
Qed.

Lemma digits_prefix_app_l (n : nat) (p rest : string) :
  digits_prefix n p = true -> digits_prefix n (p ++ rest) = true.
Proof.
  revert p. induction n as [|n IH]; intros p H; [reflexivity|].
  destruct p as [|c p]; [discriminate|].
  simpl in *. apply andb_prop in H. destruct H as [Hc H].
  rewrite Hc, (IH p H). reflexivity.
Qed.

Lemma last_not_digit_not_all_digits (p : string) :
  p <> "" -> last_is_digit p = false ->
  digits_prefix (String.length p) p = false.
Proof.
  induction p as [|c p IH]; intros Hne H; [congruence|].
  destruct p as [|c' p'].
  - simpl in *. rewrite H. reflexivity.
  - change (last_is_digit (String c (String c' p')))
      with (last_is_digit (String c' p')) in H.
    change (digits_prefix (String.length (String c (String c' p')))
                          (String c (String c' p')))
      with (PyStr.is_digit c
            && digits_prefix (String.length (String c' p')) (String c' p'))%bool.
    rewrite IH by (congruence || assumption). apply andb_false_r.
Qed.

Lemma last_is_digit_tail (c : ascii) (p : string) :
  last_is_digit (String c p) = false -> p <> "" -> last_is_digit p = false.
Proof. destruct p; [congruence|intros H _; exact H]. Qed.

(** Behind a text that does not end with a digit, a run of digits that
    starts in it ends in it. *)
Lemma digits_prefix_inside (n : nat) (p rest : string) :
  p <> "" -> last_is_digit p = false ->
  digits_prefix n (p ++ rest) = true -> digits_prefix n p = true.
Proof.
  intros Hne Hl H.
  destruct (digits_prefix_app n p rest H) as [L|(A & _)]; [exact L|].
  rewrite (last_not_digit_not_all_digits p Hne Hl) in A. discriminate.
Qed.

Lemma re_search_unfold (c : ascii) (s : string) :
  re_search_16_digits (String c s)
  = if digits_prefix 16 (String c s) then Some (PyStr.take 16 (String c s))
    else re_search_16_digits s.
Proof. reflexivity. Qed.

Lemma re_search_none_head (c : ascii) (s : string) :
  re_search_16_digits (String c s) = None ->
  digits_prefix 16 (String c s) = false /\ re_search_16_digits s = None.
Proof.
  rewrite re_search_unfold.
  destruct (digits_prefix 16 (String c s)); [discriminate|auto].
Qed.

Lemma re_search_none_no_prefix (s : string) :
  re_search_16_digits s = None -> digits_prefix 16 s = false.
Proof.
  destruct s as [|c s]; [reflexivity|]. intros H.
  apply (re_search_none_head c s H).
Qed.

(** The search goes through a text without a run of 16 digits that does not
    end with a digit. *)
Lemma re_search_skip (pre rest : string) :
  re_search_16_digits pre = None -> last_is_digit pre = false ->
  re_search_16_digits (pre ++ rest) = re_search_16_digits rest.
Proof.
  induction pre as [|c pre IH]; intros Hn Hl; [reflexivity|].
  destruct (re_search_none_head c pre Hn) as [Hp Hn'].
  change (String c pre ++ rest) with (String c (pre ++ rest)).
  rewrite re_search_unfold.
  destruct (digits_prefix 16 (String c (pre ++ rest))) eqn:D.
  - apply (digits_prefix_inside 16 (String c pre) rest) in D;
      [congruence|discriminate|exact Hl].
  - destruct pre as [|c' pre']; [reflexivity|].
    apply IH; [exact Hn'|]. apply (last_is_digit_tail c); [exact Hl|discriminate].
Qed.

Lemma take_app_exact (s t : string) :
  PyStr.take (String.length s) (s ++ t) = s.
Proof. induction s as [|c s IH]; simpl; [destruct t; reflexivity|now rewrite IH]. Qed.

Lemma re_search_card (card post : string) :
  String.length card = 16%nat -> digits_prefix 16 card = true ->
  re_search_16_digits (card ++ post) = Some card.
Proof.
  intros Hlen Hd.
  destruct card as [|c card]; [discriminate|].
  change (String c card ++ post) with (String c (card ++ post)).
  rewrite re_search_unfold.
  change (String c (card ++ post)) with (String c card ++ post).
  rewrite (digits_prefix_app_l 16 _ post Hd).
  rewrite <- Hlen at 1. rewrite take_app_exact. reflexivity.
Qed.

Lemma startswith_digits (p s : string) :
  PyStr.startswith p s = true ->
  digits_prefix (String.length p) p = true ->
  digits_prefix (String.length p) s = true.
Proof.
  revert s. induction p as [|a p IH]; intros s H D; [reflexivity|].
  destruct s as [|b s]; [discriminate|].
  simpl in *. apply andb_prop in H. destruct H as [Hab H].
  apply andb_prop in D. destruct D as [Da D].
  apply Ascii.eqb_eq in Hab. subst b.
  rewrite Da, (IH s H D). reflexivity.
Qed.

Lemma startswith_app_self (p rest : string) :
  PyStr.startswith p (p ++ rest) = true.
Proof.
  induction p as [|a p IH]; [reflexivity|].
  simpl. rewrite Ascii.eqb_refl, IH. reflexivity.
Qed.

Lemma replace_scan_skip (old new p rest : string) :
  PyStr.replace_scan old new (String.length p) (p ++ rest)
  = PyStr.replace_scan old new 0 rest.
Proof.
  induction p as [|c p IH]; simpl; [|exact IH].
  destruct rest; reflexivity.
Qed.

Section Card.

Variables card new : string.
Hypothesis card_length : String.length card = 16%nat.
Hypothesis card_digits : digits_prefix 16 card = true.

Lemma occurrence_is_run (s : string) :
  PyStr.startswith card s = true -> digits_prefix 16 s = true.
Proof.
  intros H. rewrite <- card_length.
  apply startswith_digits; [exact H|]. rewrite card_length. exact card_digits.
Qed.

(** Nothing is replaced in a text without a run of 16 digits. *)
Lemma replace_scan_none (s : string) :
  re_search_16_digits s = None -> PyStr.replace_scan card new 0 s = s.
Proof.
  induction s as [|c s IH]; intros Hn; [reflexivity|].
  destruct (re_search_none_head c s Hn) as [Hp Hn'].
  simpl. destruct (PyStr.startswith card (String c s)) eqn:E.
  - apply occurrence_is_run in E. congruence.
  - rewrite (IH Hn'). reflexivity.
Qed.

Lemma replace_scan_through (pre rest : string) :
  re_search_16_digits pre = None -> last_is_digit pre = false ->
  PyStr.replace_scan card new 0 (pre ++ rest)
  = pre ++ PyStr.replace_scan card new 0 rest.
Proof.
  induction pre as [|c pre IH]; intros Hn Hl; [reflexivity|].
  destruct (re_search_none_head c pre Hn) as [Hp Hn'].
  change (String c pre ++ rest) with (String c (pre ++ rest)).
  cbn [PyStr.replace_scan].
  destruct (PyStr.startswith card (String c (pre ++ rest))) eqn:E.
  - apply occurrence_is_run in E.
    apply (digits_prefix_inside 16 (String c pre) rest) in E;
      [congruence|discriminate|exact Hl].
  - destruct pre as [|c' pre']; [reflexivity|].
    rewrite IH; [reflexivity|exact Hn'|].
    apply (last_is_digit_tail c); [exact Hl|discriminate].
Qed.

Lemma replace_scan_card (post : string) :
  PyStr.replace_scan card new 0 (card ++ post)
  = new ++ PyStr.replace_scan card new 0 post.
Proof.
  pose proof (startswith_app_self card post) as E.
  destruct card as [|c card'] eqn:Ec; [discriminate|].
  change (String c card' ++ post) with (String c (card' ++ post)) in *.
  cbn [PyStr.replace_scan]. rewrite E.
  replace (String.length (String c card') - 1)%nat with (String.length card')
    by (simpl; lia).
  rewrite replace_scan_skip. reflexivity.
Qed.

End Card.

Lemma drop_length (n : nat) (s : string) :
  String.length (PyStr.drop n s) = (String.length s - n)%nat.
Proof.
  revert s. induction n as [|n IH]; intros s; simpl.
  - lia.
  - destruct s as [|c s]; simpl; [reflexivity|apply IH].
Qed.

(** A short text in front of one that does not start with a digit makes no
    run of 16 digits. *)
Lemma re_search_short_prefix (l post : string) :
  (String.length l < 16)%nat -> first_is_digit post = false ->
  re_search_16_digits post = None ->
  re_search_16_digits (l ++ post) = None.
Proof.
  induction l as [|c l IH]; intros Hlen Hf Hn; [exact Hn|].
  change (String c l ++ post) with (String c (l ++ post)).
  rewrite re_search_unfold.
  destruct (digits_prefix 16 (String c (l ++ post))) eqn:D.
  - change (String c (l ++ post)) with (String c l ++ post) in D.
    destruct (digits_prefix_app 16 _ _ D) as [L|(_ & B & C)].
    + apply digits_prefix_length in L. lia.
    + destruct (16 - String.length (String c l))%nat as [|k] eqn:Ek; [lia|].
      apply digits_prefix_first in C. congruence.
  - apply IH; [simpl in Hlen; lia|exact Hf|exact Hn].
Qed.

Lemma contains_unfold (sub s : string) :
  PyStr.contains sub s
  = (PyStr.startswith sub s
     || match s with
        | EmptyString => false
        | String _ rest => PyStr.contains sub rest
        end)%bool.
Proof. destruct s; reflexivity. Qed.


Lemma has_16_digits_false (s : string) :
  has_16_digits s = false <-> re_search_16_digits s = None.
Proof.
  unfold has_16_digits. destruct (re_search_16_digits s); split; congruence.
Qed.

(** The one card number of a text is replaced, and nothing else. *)
Lemma anonymize_single_card (pre card post : string) :
  String.length card = 16%nat -> digits_prefix 16 card = true ->
  has_16_digits pre = false -> last_is_digit pre = false ->
  has_16_digits post = false -> first_is_digit post = false ->
  _anonymize_sensitive_data (pre ++ card ++ post)
  = pre ++ ("****" ++ PyStr.last_chars 4 card) ++ post.
Proof.
  intros Hlen Hd Hpre Hl Hpost Hf.
  apply has_16_digits_false in Hpre. apply has_16_digits_false in Hpost.
  unfold _anonymize_sensitive_data.
  rewrite re_search_skip, (re_search_card card post Hlen Hd) by assumption.
  unfold PyStr.replace.
  rewrite (replace_scan_through card _ Hlen Hd) by assumption.
  rewrite (replace_scan_card card _ Hlen Hd).
  rewrite (replace_scan_none card _ Hlen Hd) by assumption.
  reflexivity.
Qed.

Lemma redacted_has_no_run (pre card post : string) :
  String.length card = 16%nat ->
  has_16_digits pre = false -> last_is_digit pre = false ->
  has_16_digits post = false -> first_is_digit post = false ->
  has_16_digits (pre ++ ("****" ++ PyStr.last_chars 4 card) ++ post) = false.
Proof.
  intros Hlen Hpre Hl Hpost Hf.
  apply has_16_digits_false in Hpre. apply has_16_digits_false in Hpost.
  apply has_16_digits_false.
  rewrite re_search_skip by assumption.
  change (("****" ++ PyStr.last_chars 4 card) ++ post)
    with ("****" ++ (PyStr.last_chars 4 card ++ post)).
  cbn [append]. repeat rewrite re_search_unfold. cbn [digits_prefix PyStr.is_digit].
  change (PyStr.is_digit "*") with false. cbn [andb].
  apply re_search_short_prefix; [|exact Hf|exact Hpost].
  unfold PyStr.last_chars. rewrite drop_length, Hlen. simpl. lia.
Qed.

(** A text that does not hold [old] is left as it is. *)
Lemma replace_scan_absent (old new s : string) :
  PyStr.contains old s = false -> PyStr.replace_scan old new 0 s = s.
Proof.
  induction s as [|c s IH]; intros H; [reflexivity|].
  rewrite contains_unfold in H. apply orb_false_elim in H.
  destruct H as [Hs Hc]. cbn [PyStr.replace_scan]. rewrite Hs, (IH Hc).
  reflexivity.
Qed.

(** Only the leftmost run of 16 digits is looked for: what follows it is
    logged as it is, unless it repeats that run. *)
Lemma anonymize_keeps_what_follows (pre card rest : string) :
  String.length card = 16%nat -> digits_prefix 16 card = true ->
  has_16_digits pre = false -> last_is_digit pre = false ->
  PyStr.contains card rest = false ->
  _anonymize_sensitive_data (pre ++ card ++ rest)
  = pre ++ ("****" ++ PyStr.last_chars 4 card) ++ rest.
Proof.
  intros Hlen Hd Hpre Hl Hrest. apply has_16_digits_false in Hpre.
  unfold _anonymize_sensitive_data.
  rewrite re_search_skip, (re_search_card card rest Hlen Hd) by assumption.
  unfold PyStr.replace.
  rewrite (replace_scan_through card _ Hlen Hd) by assumption.
  rewrite (replace_scan_card card _ Hlen Hd).
  rewrite replace_scan_absent by assumption. reflexivity.
Qed.

(** C4 on the code.  With debugging off nothing is logged.  With debugging
    on, the request text and the response text are logged after
    [_anonymize_sensitive_data], which looks for the leftmost run of 16
    digits only: a text without a run is logged as it is; the leftmost run
    becomes "****" and its last 4 digits; whatever follows that run and does
    not repeat it, another run of 16 digits included, is logged unchanged.
    So a lone card number is redacted (no run of 16 digits is left), but a
    card number that stands behind another run is logged in full: behind a
    card holder name of 16 digits in the URL of the payment request, and as
    the second of two card numbers in a body. *)
Theorem card_number_reaches_the_audit_log :
  (forall (self : GarantiConnector) (response : http_response)
          (log : audit_log),
      _debug self = false ->
      _process_http_request self response log = (log, true))
  /\ (forall (self : GarantiConnector) (response : http_response)
             (log : audit_log),
         _debug self = true ->
         _process_http_request self response log
         = ((log ++
             [ (_anonymize_sensitive_data
                  ("Request: " ++ req_method (request response) ++ " "
                   ++ req_url (request response) ++ nl
                   ++ str_of_option (req_body (request response))
                   ++ nl ++ nl),
                "garanti_request");
               (_anonymize_sensitive_data
                  ("Response: " ++ PyStr.str_of_int (status_code response)
                   ++ nl ++ resp_text response ++ nl ++ nl),
                "garanti_response") ])%list,
            true))
  /\ (forall data : string,
         has_16_digits data = false -> _anonymize_sensitive_data data = data)
  /\ (forall pre card rest : string,
         String.length card = 16%nat -> digits_prefix 16 card = true ->
         has_16_digits pre = false -> last_is_digit pre = false ->
         PyStr.contains card rest = false ->
         _anonymize_sensitive_data (pre ++ card ++ rest)
         = pre ++ ("****" ++ PyStr.last_chars 4 card) ++ rest)
  /\ (forall pre card post : string,
         String.length card = 16%nat -> digits_prefix 16 card = true ->
         has_16_digits pre = false -> last_is_digit pre = false ->
         has_16_digits post = false -> first_is_digit post = false ->
         let logged := _anonymize_sensitive_data (pre ++ card ++ post) in
         logged = pre ++ ("****" ++ PyStr.last_chars 4 card) ++ post
         /\ has_16_digits logged = false)
  /\ (PyStr.contains "cardnumber=4111111111111111"
        (logged_request holder_name_of_digits) = true
      /\ PyStr.contains "cardname=****3456"
           (logged_request holder_name_of_digits) = true
      /\ has_16_digits (logged_request holder_name_of_digits) = true)
  /\ (PyStr.contains "5500000000000004" (logged_request two_card_numbers)
      = true
      /\ PyStr.contains "cardnumber=****1111" (logged_request two_card_numbers)
         = true
      /\ has_16_digits (logged_request two_card_numbers) = true).
Proof.
  split; [|split; [|split; [|split; [|split; [|split]]]]].
  - intros self response log H. unfold _process_http_request.
    rewrite H. reflexivity.
  - intros self response log H. unfold _process_http_request.
    rewrite H. reflexivity.
  - intros data H. apply has_16_digits_false in H.
    unfold _anonymize_sensitive_data. rewrite H. reflexivity.
  - exact anonymize_keeps_what_follows.
  - intros pre card post Hlen Hd Hpre Hl Hpost Hf. cbv zeta.
    rewrite anonymize_single_card by assumption.
    split; [reflexivity|]. apply redacted_has_no_run; assumption.
  - repeat split; vm_compute; reflexivity.
  - repeat split; vm_compute; reflexivity.
Qed.

(* ===================================================================== *)
(** ** Confirmation of a callback *)
(* ===================================================================== *)

Lemma text_neq_false (t : option string) (lit : string) :
  text_neq t lit = false <-> t = Some lit.
Proof.
  destruct t as [s|]; simpl.
  - rewrite negb_false_iff, String.eqb_eq. split; congruence.
  - split; discriminate.
Qed.

(** What [_garanti_payment_callback] returns, by the build of the document
    and the answer of the provider. *)
Lemma payment_callback_result `{Serializers} (self : GarantiConnector)
    (net : network) (nd : dict string) (log : audit_log) :
  snd (_garanti_payment_callback self net nd log)
  = if xml_texts_ok (gvps_request_tree (with_notification_data self nd))
    then
      match net (callback_call (with_notification_data self nd)) with
      | Raise _ => Return (Some msg_try_again_callback)
      | Return resp =>
          match raise_for_status resp with
          | Raise _ => Return (Some msg_try_again_callback)
          | Return _ =>
              try_except (callback_parse resp)
                         (fun _ => Return (Some msg_try_again_callback))
          end
      end
    else Raise ValueError.
Proof.
  unfold _garanti_payment_callback, _garanti_create_callback_xml,
    build_gvps_request, _garanti_requests.
  destruct (xml_texts_ok (gvps_request_tree (with_notification_data self nd)));
    [|reflexivity].
  cbn [bind]. fold (callback_call (with_notification_data self nd)).
  destruct (net (callback_call (with_notification_data self nd))) as [resp|e];
    [|reflexivity].
  destruct (_process_http_request _ resp log) as [log' b].
  destruct (raise_for_status resp); reflexivity.
Qed.

(** A failed build ends [_garanti_payment_callback] at once: the
    notification is stored, nothing is sent and nothing logged. *)
Lemma payment_callback_unbuilt `{Serializers} (self : GarantiConnector)
    (net : network) (nd : dict string) (log : audit_log) :
  xml_texts_ok (gvps_request_tree (with_notification_data self nd)) = false ->
  _garanti_payment_callback self net nd log
  = (with_notification_data self nd, log, Raise ValueError).
Proof.
  intros Hno.
  unfold _garanti_payment_callback, _garanti_create_callback_xml,
    build_gvps_request.
  rewrite Hno. reflexivity.
Qed.

(** The parse of a well-formed answer, by the three nodes looked up. *)
Lemma callback_parse_document (resp : http_response) (root : element) :
  content_xml resp = Some root ->
  try_except (callback_parse resp)
             (fun _ => Return (Some msg_try_again_callback))
  = match find_path root "Transaction" ["Response"; "ReasonCode"],
          find_path root "Transaction" ["Response"; "Message"] with
    | Some rc, Some m =>
        if (text_neq (element_text rc) "00"
            || text_neq (element_text m) "Approved")%bool
        then match find_path root "Transaction" ["Response"; "ErrorMsg"] with
             | Some en => Return (element_text en)
             | None => Return (Some msg_try_again_callback)
             end
        else Return (element_text m)
    | _, _ => Return (Some msg_try_again_callback)
    end.
Proof.
  intros Hx. unfold callback_parse, fromstring. rewrite Hx. cbn [bind].
  destruct (find_path root "Transaction" ["Response"; "ReasonCode"]) as [rc|];
    [|reflexivity].
  cbn [text_of_found bind].
  destruct (find_path root "Transaction" ["Response"; "Message"]) as [m|];
    [|reflexivity].
  cbn [text_of_found bind].
  destruct (text_neq (element_text rc) "00" || text_neq (element_text m) "Approved")%bool;
    [|reflexivity].
  destruct (find_path root "Transaction" ["Response"; "ErrorMsg"]);
    reflexivity.
Qed.

(** C2, as stated, fails: on a well-formed decline (ReasonCode 05, Message
    Declined) whose ErrorMsg text is "Approved" the callback returns
    "Approved", the very value of an approval, although the reason code is
    not "00" and the message is not "Approved". *)
Lemma callback_decline_returns_approved :
  snd (_garanti_payment_callback sample_connector
         (fun _ => Return declined_reading_approved) [] [])
  = Return (Some "Approved")
  /\ snd (_garanti_payment_callback sample_connector
            (fun _ => Return approved_response) [] [])
     = Return (Some "Approved")
  /\ answer_text declined_reading_approved "ReasonCode" = Some (Some "05")
  /\ answer_text declined_reading_approved "Message" = Some (Some "Declined")
  /\ answer_text declined_reading_approved "ErrorMsg" = Some (Some "Approved")
  /\ raise_for_status declined_reading_approved = Return tt.
Proof. repeat split. Qed.

(** Steps shared by the cases of the theorem below: the value is read off
    the reduced call, the answer of the provider is the one at hand, and a
    premise about another status or another document contradicts it. *)
Ltac read_value :=
  eexists; split; [reflexivity|]; split; [discriminate|].

Ltac the_answer_at_hand :=
  let E := fresh "E" in
  intros ? E; injection E as <-.

Ltac other_case Hfact :=
  let H := fresh "H" in
  intros H; try rewrite Hfact in H; discriminate H.

(** C2, amended: once the request document is built,
    [_garanti_payment_callback] never raises on account of the response.  It
    returns the message text "Approved" when the ReasonCode text is "00" and
    the Message text is "Approved"; for any other combination it returns
    the text of the ErrorMsg node when that node is present, and the generic
    payment-error message when it is absent (so the value is "Approved" only
    on an approval or when the ErrorMsg text itself reads "Approved"); for a
    failed exchange, an unparseable document, or a document without a
    ReasonCode or a Message node it returns the generic payment-error
    message.  The document is built before the first [try]: when a text of
    the notification or of the provider holds a control character, the
    [ValueError] of the build leaves the method, with the notification
    stored, nothing sent and nothing logged. *)
Theorem payment_callback_outcome (S : Serializers) (self : GarantiConnector)
    (net : network) (nd : dict string) (log : audit_log) :
  (xml_texts_ok (gvps_request_tree (with_notification_data self nd)) = false ->
   _garanti_payment_callback self net nd log
   = (with_notification_data self nd, log, Raise ValueError))
  /\
  (xml_texts_ok (gvps_request_tree (with_notification_data self nd)) = true ->
  exists v : option string,
    snd (_garanti_payment_callback self net nd log) = Return v
    /\ (forall e : exn,
           net (callback_call (with_notification_data self nd)) = Raise e ->
           v = Some msg_try_again_callback)
    /\ (forall resp : http_response,
           net (callback_call (with_notification_data self nd)) = Return resp ->
           (raise_for_status resp = Raise RequestException ->
            v = Some msg_try_again_callback)
           /\ (raise_for_status resp = Return tt ->
               (content_xml resp = None -> v = Some msg_try_again_callback)
               /\ (forall root : element,
                      content_xml resp = Some root ->
                      let reason_code :=
                        find_path root "Transaction" ["Response"; "ReasonCode"] in
                      let message :=
                        find_path root "Transaction" ["Response"; "Message"] in
                      let error_msg :=
                        find_path root "Transaction" ["Response"; "ErrorMsg"] in
                      (reason_code = None \/ message = None ->
                       v = Some msg_try_again_callback)
                      /\ (forall rc m : element,
                             reason_code = Some rc -> message = Some m ->
                             (element_text rc = Some "00"
                              /\ element_text m = Some "Approved" ->
                              v = Some "Approved")
                             /\ (~ (element_text rc = Some "00"
                                    /\ element_text m = Some "Approved") ->
                                 (forall en : element,
                                     error_msg = Some en ->
                                     v = element_text en)
                                 /\ (error_msg = None ->
                                     v = Some msg_try_again_callback))
                             /\ (v = Some "Approved" ->
                                 (element_text rc = Some "00"
                                  /\ element_text m = Some "Approved")
                                 \/ option_map element_text error_msg
                                    = Some (Some "Approved"))))))).
Proof.
  split; [apply payment_callback_unbuilt|]. intros Hbuilt.
  rewrite payment_callback_result, Hbuilt.
  destruct (net (callback_call (with_notification_data self nd)))
    as [resp|e] eqn:Hnet.
  2:{ eexists. split; [reflexivity|]. split; [reflexivity|]. discriminate. }
  destruct (raise_for_status resp) as [[]|e] eqn:Hst.
  2:{ read_value. the_answer_at_hand. split; [reflexivity|].
      other_case Hst. }
  destruct (content_xml resp) as [root|] eqn:Hx.
  2:{ unfold callback_parse, fromstring. rewrite Hx. cbn.
      read_value. the_answer_at_hand. split; [reflexivity|].
      intros _. split; [reflexivity|]. intros root. other_case Hx. }
  rewrite (callback_parse_document resp root Hx).
  destruct (find_path root "Transaction" ["Response"; "ReasonCode"])
    as [rc|] eqn:Hrc;
  [destruct (find_path root "Transaction" ["Response"; "Message"])
     as [m|] eqn:Hm|].
  - destruct (text_neq (element_text rc) "00"
              || text_neq (element_text m) "Approved")%bool eqn:Hap.
    + (* a decline *)
      assert (Hno : ~ (element_text rc = Some "00"
                       /\ element_text m = Some "Approved")).
      { intros [A B]. apply text_neq_false in A. apply text_neq_false in B.
        rewrite A, B in Hap. discriminate. }
      destruct (find_path root "Transaction" ["Response"; "ErrorMsg"])
        as [en|] eqn:Herr;
        read_value; the_answer_at_hand;
        (split; [other_case Hst|]); intros _;
        (split; [other_case Hx|]);
        intros root' E'; rewrite Hx in E'; injection E' as <-; cbv zeta;
        rewrite Hrc, Hm, Herr;
        (split; [intros [?|?]; discriminate|]);
        intros rc' m' [= <-] [= <-];
        (split; [intros Happ; contradiction|]).
      * split.
        -- intros _. split; [intros en' [= <-]; reflexivity|discriminate].
        -- intros Hv. right. cbn [option_map]. congruence.
      * split; [intros _; split; [discriminate|reflexivity]|discriminate].
    + (* an approval *)
      apply orb_false_elim in Hap. destruct Hap as [A B].
      apply text_neq_false in A. apply text_neq_false in B.
      read_value. the_answer_at_hand. split; [other_case Hst|].
      intros _. split; [other_case Hx|].
      intros root' E'. rewrite Hx in E'. injection E' as <-. cbv zeta.
      rewrite Hrc, Hm. split; [intros [?|?]; discriminate|].
      intros rc' m' [= <-] [= <-]. split; [intros _; exact B|]. split.
      * intros Hno. exfalso. apply Hno. split; assumption.
      * intros _. left. split; assumption.
  - read_value. the_answer_at_hand. split; [other_case Hst|].
    intros _. split; [other_case Hx|].
    intros root' E'. rewrite Hx in E'. injection E' as <-. cbv zeta.
    rewrite Hrc, Hm. split; [reflexivity|]. discriminate.
  - read_value. the_answer_at_hand. split; [other_case Hst|].
    intros _. split; [other_case Hx|].
    intros root' E'. rewrite Hx in E'. injection E' as <-. cbv zeta.
    rewrite Hrc. split; [reflexivity|]. discriminate.
Qed.

(** The amended C2 at an approval, at a decline without an ErrorMsg node,
    and at a notification that holds a control character. *)
Lemma payment_callback_outcome_witness :
  snd (_garanti_payment_callback sample_connector
         (fun _ => Return approved_response) [] [])
  = Return (Some "Approved")
  /\ snd (_garanti_payment_callback sample_connector
            (fun _ => Return declined_without_error_node) [] [])
     = Return (Some "Payment Error: Please try again.")
  /\ _garanti_payment_callback sample_connector
       (fun _ => Return approved_response)
       notification_with_control_character []
     = (with_notification_data sample_connector
          notification_with_control_character, [], Raise ValueError).
Proof.
  split; [|split].
  - destruct (proj2 (payment_callback_outcome names_only sample_connector
                       (fun _ => Return approved_response) [] []) eq_refl)
      as (v & Hr & _ & Hresp).
    rewrite Hr. f_equal.
    destruct (Hresp approved_response eq_refl) as [_ Hok].
    destruct (Hok eq_refl) as [_ Hdoc].
    destruct (Hdoc _ eq_refl) as [_ Hnodes]. cbv zeta in Hnodes.
    apply (proj1 (Hnodes _ _ eq_refl eq_refl)). split; reflexivity.
  - destruct (proj2 (payment_callback_outcome names_only sample_connector
                       (fun _ => Return declined_without_error_node) [] [])
                eq_refl)
      as (v & Hr & _ & Hresp).
    rewrite Hr. f_equal.
    destruct (Hresp declined_without_error_node eq_refl) as [_ Hok].
    destruct (Hok eq_refl) as [_ Hdoc].
    destruct (Hdoc _ eq_refl) as [_ Hnodes]. cbv zeta in Hnodes.
    destruct (Hnodes _ _ eq_refl eq_refl) as (_ & Hdecline & _).
    apply Hdecline; [intros [Hcode _]; discriminate Hcode|reflexivity].
  - exact (proj1 (payment_callback_outcome names_only sample_connector
                    (fun _ => Return approved_response)
                    notification_with_control_character []) eq_refl).
Defined.

(* ===================================================================== *)
(** ** Initiate phase: what reaches the caller *)
(* ===================================================================== *)

(** The four outcomes of [_garanti_parse_response_html] on its own. *)
Lemma parse_response_html_cases `{Serializers} (response : http_response) :
  match soup_find "input" "name" "mderrormessage" (text_soup response) with
  | Some error_msg =>
      forall value : string,
        tag_getitem error_msg "value" = Return value ->
        _garanti_parse_response_html response
        = Raise (ValidationError
                   (if String.eqb value "Not Authenticated"
                    then "Payment failed. POS: Card is not authenticated."
                    else "Payment Error: " ++ value))
  | None =>
      match soup_find "form" "id" "webform0" (text_soup response) with
      | Some form =>
          _garanti_parse_response_html response
          = Return ("form", bs4_str [form])
      | None =>
          _garanti_parse_response_html response
          = Return ("redirect", bs4_str (text_soup response))
      end
  end.
Proof.
  unfold _garanti_parse_response_html.
  destruct (soup_find "input" "name" "mderrormessage" (text_soup response))
    as [error_msg|].
  - intros value Hv. rewrite Hv.
    destruct (String.eqb value "Not Authenticated"); reflexivity.
  - destruct (soup_find "form" "id" "webform0" (text_soup response));
      reflexivity.
Qed.

(** Whatever is raised inside the [try] of [_garanti_make_payment_request]
    leaves it as the one generic error. *)
Lemma make_payment_request_raises `{Serializers} (self : GarantiConnector)
    (net : network) (timestamp : Z) (log : audit_log) (e : exn) :
  snd (_garanti_make_payment_request self net timestamp log) = Raise e ->
  _garanti_create_payment_vals self timestamp = Raise e
  \/ e = ValidationError msg_try_again_initiate.
Proof.
  unfold _garanti_make_payment_request.
  destruct (_garanti_create_payment_vals self timestamp) as [[self' vals]|e0].
  - destruct (_garanti_requests self' net _ log) as [log' r]. cbn [snd].
    destruct r as [resp|e1]; cbn [bind try_except].
    + destruct (_garanti_parse_response_html resp); cbn [try_except].
      * discriminate.
      * intros [= <-]. right. reflexivity.
    + intros [= <-]. right. reflexivity.
  - cbn [snd]. intros [= <-]. left. reflexivity.
Qed.

(** C5 on the code, at the page of a failed challenge: the parser raises the
    error that says the card is not authenticated, and
    [_garanti_make_payment_request], whose [except Exception] also catches
    that error, raises the generic one in its place; the same happens to
    every other error text of the provider. *)
Theorem initiate_error_text_is_replaced (S : Serializers) :
  _garanti_parse_response_html not_authenticated_page
  = Raise (ValidationError "Payment failed. POS: Card is not authenticated.")
  /\ (forall (timestamp : Z) (log : audit_log),
         snd (_garanti_make_payment_request sample_connector
                (fun _ => Return not_authenticated_page) timestamp log)
         = Raise (ValidationError
                    "Payment Error: An error occurred. Please try again."))
  /\ (forall (self self' : GarantiConnector) (vals : dict pyval)
             (net : network) (timestamp : Z) (log : audit_log) (e : exn),
         _garanti_create_payment_vals self timestamp = Return (self', vals) ->
         snd (_garanti_make_payment_request self net timestamp log) = Raise e ->
         e = ValidationError
               "Payment Error: An error occurred. Please try again.").
Proof.
  split; [reflexivity|]. split.
  - intros timestamp log.
    unfold _garanti_make_payment_request, _garanti_requests.
    cbn [_garanti_create_payment_vals sample_connector sample_connector_for_year
         cardexpiredateyear card_args dict_get String.eqb Ascii.eqb Bool.eqb].
    cbv beta iota zeta.
    destruct (_garanti_create_secure3d_hash _) as [self' h].
    destruct (_process_http_request self' not_authenticated_page log)
      as [log' b].
    reflexivity.
  - intros self self' vals net timestamp log e Hv He.
    destruct (make_payment_request_raises self net timestamp log e He)
      as [Hc|Hc]; [congruence|exact Hc].
Qed.

(* ===================================================================== *)
(** ** Status query *)
(* ===================================================================== *)

(** What [_garanti_query_transaction] returns, by the build of the document
    and the answer of the provider. *)
Lemma query_transaction_result `{Serializers} (self : GarantiConnector)
    (net : network) (log : audit_log) :
  let self' := with_notification_data self (query_notification_data self) in
  snd (_garanti_query_transaction self net log)
  = if xml_texts_ok (gvps_request_tree self')
    then
      match net (callback_call self') with
      | Raise _ => Raise (ValidationError msg_try_again_initiate)
      | Return resp =>
          match raise_for_status resp with
          | Raise _ => Raise (ValidationError msg_try_again_initiate)
          | Return _ => query_parse resp
          end
      end
    else Raise ValueError.
Proof.
  cbv zeta.
  unfold _garanti_query_transaction, _garanti_create_query_transaction_vals,
    build_gvps_request, _garanti_requests.
  destruct (xml_texts_ok
              (gvps_request_tree
                 (with_notification_data self (query_notification_data self))));
    [|reflexivity].
  cbn [bind].
  fold (callback_call
          (with_notification_data self (query_notification_data self))).
  destruct (net (callback_call
                   (with_notification_data self (query_notification_data self))))
    as [resp|e]; [|reflexivity].
  destruct (_process_http_request _ resp log) as [log' b].
  destruct (raise_for_status resp); reflexivity.
Qed.

(** Whatever happens, the query leaves on the connector the notification
    it made and nothing else changed. *)
Lemma query_transaction_connector `{Serializers} (self : GarantiConnector)
    (net : network) (log : audit_log) :
  fst (fst (_garanti_query_transaction self net log))
  = with_notification_data self (query_notification_data self).
Proof.
  unfold _garanti_query_transaction.
  destruct (_garanti_create_query_transaction_vals _) as [xml_data|e];
    [|reflexivity].
  destruct (_garanti_requests _ net _ log) as [log' r].
  destruct r; reflexivity.
Qed.

(** C7 on the code, at a body that is not XML: [etree.fromstring] stands
    outside the [try] of [_garanti_query_transaction], so the parser's own
    exception is what the caller gets, where the callback confirmation
    returns the generic payment-error message on the same body; the
    transaction is left as it was.  (A connector whose texts hold a control
    character does not get that far: the build of the request document
    raises [ValueError], in the query and in the callback alike.) *)
Theorem query_malformed_xml_escapes (S : Serializers)
    (self : GarantiConnector) (log : audit_log) :
  snd (_garanti_query_transaction self
         (fun _ => Return malformed_response) log)
  = (if xml_texts_ok
          (gvps_request_tree
             (with_notification_data self (query_notification_data self)))
     then Raise XMLSyntaxError
     else Raise ValueError)
  /\ tx (fst (fst (_garanti_query_transaction self
                     (fun _ => Return malformed_response) log)))
     = tx self
  /\ (forall nd : dict string,
         snd (_garanti_payment_callback self
                (fun _ => Return malformed_response) nd log)
         = (if xml_texts_ok
                 (gvps_request_tree (with_notification_data self nd))
            then Return (Some "Payment Error: Please try again.")
            else Raise ValueError))
  /\ snd (_garanti_query_transaction sample_connector
            (fun _ => Return malformed_response) log)
     = Raise XMLSyntaxError
  /\ snd (_garanti_payment_callback sample_connector
            (fun _ => Return malformed_response) [] log)
     = Return (Some "Payment Error: Please try again.").
Proof.
  split; [|split; [|split; [|split]]].
  - rewrite query_transaction_result. reflexivity.
  - rewrite query_transaction_connector. reflexivity.
  - intros nd. rewrite payment_callback_result. reflexivity.
  - rewrite query_transaction_result. reflexivity.
  - rewrite payment_callback_result. reflexivity.
Qed.

(* ===================================================================== *)
(** ** Expiry year *)
(* ===================================================================== *)

(** X20: for a year of this century other than 2020 the entry is the last
    two digits. *)
Lemma expiry_year_of_this_century (y z : ascii) :
  (Ascii.eqb y "2" && Ascii.eqb z "0")%bool = false ->
  cardexpiredateyear
    [("card_valid_year", String "2" (String "0" (String y (String z ""))))]
  = Return (String y (String z "")).
Proof.
  intros H. unfold cardexpiredateyear.
  change (dict_get _ "card_valid_year")
    with (Some (String "2" (String "0" (String y (String z ""))))).
  unfold PyStr.replace.
  cbn [PyStr.replace_scan PyStr.startswith String.length Nat.sub].
  rewrite !Ascii.eqb_refl. cbn [andb append PyStr.replace_scan PyStr.startswith].
  rewrite (Ascii.eqb_sym y "2"), (Ascii.eqb_sym z "0") in H.
  rewrite andb_true_r, H, andb_false_r. reflexivity.
Qed.

(** C9 on the code, at the years 2120, 2020 and 2200: every occurrence of
    "20" is removed from the year, which leaves "21", the empty text and
    "20", not the last two digits "20", "20" and "00". *)
Theorem expiry_year_strips_every_20 :
  cardexpiredateyear [("card_valid_year", "2120")] = Return "21"
  /\ cardexpiredateyear [("card_valid_year", "2020")] = Return ""
  /\ cardexpiredateyear [("card_valid_year", "2200")] = Return "20"
  /\ (forall timestamp : Z,
         exists (self' : GarantiConnector) (vals : dict pyval),
           _garanti_create_payment_vals (sample_connector_for_year "2120")
                                        timestamp
           = Return (self', vals)
           /\ dict_get vals "cardexpiredateyear" = Some (PyStr "21")).
Proof.
  split; [reflexivity|]. split; [reflexivity|]. split; [reflexivity|].
  intros timestamp. eexists. eexists. split; reflexivity.
Qed.

(* ===================================================================== *)
(** ** The initiate endpoint *)
(* ===================================================================== *)

(** X19: whatever the request, the handler creates a transaction or calls
    the provider only after the submitted amount compared equal to the
    order's. *)
Lemma effects_need_matching_amount (env : Controller.environment)
    (kw : Controller.kwargs) :
  fst (Controller.garanti_s2s_create_json_3ds env kw) <> [] ->
  exists (oid : Z) (order : Controller.sale_order) (amount : Float.float),
    Controller.order_id kw = Return oid
    /\ Controller.sale_orders env oid = Some order
    /\ Controller.parse_amount kw = Return amount
    /\ Controller.float_compare env amount
         (Controller.garanti_payment_amount order)
         (Controller.precision_get_account env) = 0.
Proof.
  unfold Controller.garanti_s2s_create_json_3ds.
  destruct (Controller.order_id kw) as [oid|] eqn:Ho; [|cbn; congruence].
  destruct (oid =? 0); [cbn; congruence|].
  destruct (Controller.sale_orders env oid) as [order|] eqn:Hs;
    [|cbn; congruence].
  destruct (Controller.acquirer_id kw) as [acq_id|]; [|cbn; congruence].
  destruct (Controller.truthy _); [cbn; congruence|].
  destruct (Controller.parse_amount kw) as [amount|] eqn:Ha;
    [|cbn; congruence].
  destruct (Z.eqb_spec
              (Controller.float_compare env amount
                 (Controller.garanti_payment_amount order)
                 (Controller.precision_get_account env)) 0) as [E|E];
    [|cbn; congruence].
  intros _. exists oid, order, amount. auto.
Qed.

Section Initiate.

Import Controller.

Variable env : environment.
Variable kw : kwargs.
Variables (oid acq_id : Z) (order : sale_order) (amount : Float.float).

(** The request gets as far as the validation of the amount. *)
Hypothesis order_id_given : order_id kw = Return oid.
Hypothesis order_id_nonzero : oid <> 0.
Hypothesis order_found : sale_orders env oid = Some order.
Hypothesis acquirer_id_given : acquirer_id kw = Return acq_id.
Hypothesis card_args_valid :
  truthy (_garanti_validate_card_args env (build_card_args kw)) = false.
Hypothesis amount_given : amount_total kw = Return amount.

Lemma handler_at_amount_check :
  garanti_s2s_create_json_3ds env kw
  = if negb (float_compare env amount (garanti_payment_amount order)
                           (precision_get_account env) =? 0)
    then ([], Raise (ValidationError "Invalid amount"))
    else
      let tx_sudo := created_transaction order acq_id in
      let card_args := build_card_args kw in
      let sent := [TransactionCreated tx_sudo;
                   PaymentRequestSent amount card_args (remote_addr env)] in
      match acquirer_make_payment_request env tx_sudo amount card_args
                                          (remote_addr env) with
      | Return content => ((sent ++ [PaymentTransactionAdded])%list,
                           Return content)
      | Raise _ =>
          ((sent ++ [TransactionErrorSet "Payment Error. Please contact us.";
                     PaymentTransactionAdded])%list,
           Raise (UnboundLocalError "response_content"))
      end.
Proof.
  unfold garanti_s2s_create_json_3ds.
  rewrite order_id_given.
  destruct (Z.eqb_spec oid 0) as [E|_]; [contradiction|].
  rewrite order_found, acquirer_id_given, card_args_valid.
  unfold parse_amount. rewrite amount_given.
  destruct (negb (float_compare env amount (garanti_payment_amount order)
                                (precision_get_account env) =? 0));
    [reflexivity|].
  cbv zeta. unfold created_transaction.
  destruct (acquirer_make_payment_request env _ amount (build_card_args kw)
                                          (remote_addr env));
    reflexivity.
Qed.

(** C8: in the initiate endpoint handler, when the payment-request call
    raises an exception, the handler records an error on the transaction and
    goes on without raising it again; the transaction is added to the
    session, and the [return] then reads [response_content], which was never
    assigned on that path: the handler ends in UnboundLocalError. *)
Theorem swallowed_exception_leaves_response_content_unbound (e : exn) :
  float_compare env amount (garanti_payment_amount order)
                (precision_get_account env) = 0 ->
  acquirer_make_payment_request env (created_transaction order acq_id) amount
                                (build_card_args kw) (remote_addr env)
  = Raise e ->
  garanti_s2s_create_json_3ds env kw
  = ([ TransactionCreated (created_transaction order acq_id);
       PaymentRequestSent amount (build_card_args kw) (remote_addr env);
       TransactionErrorSet "Payment Error. Please contact us.";
       PaymentTransactionAdded ],
     Raise (UnboundLocalError "response_content")).
Proof.
  intros Heq Hraise. rewrite handler_at_amount_check, Heq.
  cbn [Z.eqb negb]. cbv zeta. rewrite Hraise. reflexivity.
Qed.

End Initiate.

(** C6, as stated, fails: the card arguments are checked before the amount,
    so a request with a mismatched amount (19.994 against an order of
    19.995) whose card the acquirer rejects is answered with the card error
    and not with "Invalid amount". *)
Lemma card_error_precedes_invalid_amount :
  Controller.garanti_s2s_create_json_3ds rejecting_environment
    (sample_kwargs float_19_994)
  = ([], Raise (ValidationError "Card number is not valid."))
  /\ Controller.float_compare rejecting_environment float_19_994
       (Controller.garanti_payment_amount sample_order)
       (Controller.precision_get_account rejecting_environment) = -1
  /\ Controller.sale_orders rejecting_environment 42 = Some sample_order.
Proof. repeat split. Qed.

(** C6, amended: at the initiate endpoint, when the order exists and the
    submitted amount, a number, does not equal the order's payable amount
    (compared by [float_compare] at the decimal precision of "account"),
    the handler raises and nothing has happened before: no transaction
    record was created and no payment request was sent to the provider.
    What it raises is ValidationError("Invalid amount") once the acquirer
    id converts and the card arguments pass the validation, which come
    first; otherwise the error of that earlier step. *)
Theorem invalid_amount_raised_before_any_effect
    (env : Controller.environment) (kw : Controller.kwargs) (oid : Z)
    (order : Controller.sale_order) (amount : Float.float) :
  Controller.order_id kw = Return oid ->
  Controller.sale_orders env oid = Some order ->
  Controller.amount_total kw = Return amount ->
  Controller.float_compare env amount
    (Controller.garanti_payment_amount order)
    (Controller.precision_get_account env) <> 0 ->
  let card_error :=
    Controller._garanti_validate_card_args env
      (Controller.build_card_args kw) in
  Controller.garanti_s2s_create_json_3ds env kw
  = ([], Raise
           (if oid =? 0 then ValidationError "Sale order not found"
            else
              match Controller.acquirer_id kw with
              | Raise e => e
              | Return _ =>
                  if Controller.truthy card_error
                  then ValidationError (str_of_option card_error)
                  else ValidationError "Invalid amount"
              end)).
Proof.
  intros Ho Hs Ha Hne. cbv zeta.
  unfold Controller.garanti_s2s_create_json_3ds. rewrite Ho.
  destruct (oid =? 0); [reflexivity|]. rewrite Hs.
  destruct (Controller.acquirer_id kw) as [acq_id|e]; [|reflexivity].
  destruct (Controller.truthy _); [reflexivity|].
  unfold Controller.parse_amount. rewrite Ha.
  destruct (Z.eqb_spec
              (Controller.float_compare env amount
                 (Controller.garanti_payment_amount order)
                 (Controller.precision_get_account env)) 0) as [E|_];
    [contradiction|reflexivity].
Qed.

(** The amended C6 at an order of 19.995 and a submitted amount of 19.994,
    with card arguments that pass. *)
Lemma invalid_amount_raised_before_any_effect_witness :
  Controller.garanti_s2s_create_json_3ds sample_environment
    (sample_kwargs float_19_994)
  = ([], Raise (ValidationError "Invalid amount")).
Proof.
  apply (invalid_amount_raised_before_any_effect sample_environment
           (sample_kwargs float_19_994) 42 sample_order float_19_994);
    try reflexivity; vm_compute; discriminate.
Defined.

(** C8 at an order of 19.995 paid in full, with the provider out of
    reach. *)
Lemma swallowed_exception_leaves_response_content_unbound_witness :
  Controller.garanti_s2s_create_json_3ds sample_environment
    (sample_kwargs float_19_995)
  = ([ Controller.TransactionCreated (created_transaction sample_order 5);
       Controller.PaymentRequestSent float_19_995
         (Controller.build_card_args (sample_kwargs float_19_995))
         (Some "203.0.113.7");
       Controller.TransactionErrorSet "Payment Error. Please contact us.";
       Controller.PaymentTransactionAdded ],
     Raise (UnboundLocalError "response_content")).
Proof.
  apply (swallowed_exception_leaves_response_content_unbound
           sample_environment (sample_kwargs float_19_995) 42 5 sample_order
           float_19_995 ltac:(reflexivity) ltac:(discriminate)
           ltac:(reflexivity) ltac:(reflexivity) ltac:(reflexivity)
           ltac:(reflexivity)
           (ValidationError msg_try_again_initiate));
    vm_compute; reflexivity.
Defined.

(* ===================================================================== *)
(** ** Shipment e-mail *)
(* ===================================================================== *)

Section MailSend.

Import StockPicking.

Variable template_id : Z.

(** The operation sends exactly when there is an address and no mail was
    sent before. *)
Lemma button_mail_send_cases (self : picking) :
  button_mail_send (Some template_id) self
  = if (truthy (py_or (partner_email self) (sale_partner_email self))
        && negb (mail_sent self))%bool
    then ({| partner_email := partner_email self;
             sale_partner_email := sale_partner_email self;
             mail_sent := true;
             delivery_state := delivery_state self;
             carrier_sms_enabled := carrier_sms_enabled self |},
          [MessagePostWithTemplate template_id], Return true)
    else (self, [], Return true).
Proof.
  unfold button_mail_send.
  destruct (truthy (py_or (partner_email self) (sale_partner_email self))
            && negb (mail_sent self))%bool; reflexivity.
Qed.

(** Once [mail_sent] is set the operation does nothing. *)
Lemma button_mail_send_after_sent (self : picking) :
  mail_sent self = true ->
  button_mail_send (Some template_id) self = (self, [], Return true).
Proof.
  intros H. rewrite button_mail_send_cases, H, andb_false_r. reflexivity.
Qed.

Lemma press_after_sent (n : nat) (self : picking) :
  mail_sent self = true -> press (Some template_id) n self = (self, []).
Proof.
  induction n as [|n IH]; intros H; [reflexivity|].
  cbn [press].
  rewrite (button_mail_send_after_sent self H), (IH H). reflexivity.
Qed.

Lemma press_when_idle (n : nat) (self : picking) :
  (truthy (py_or (partner_email self) (sale_partner_email self))
   && negb (mail_sent self))%bool = false ->
  press (Some template_id) n self = (self, []).
Proof.
  intros H. induction n as [|n IH]; [reflexivity|].
  cbn [press]. rewrite button_mail_send_cases, H, IH. reflexivity.
Qed.

Lemma press_at_most_one (n : nat) (self : picking) :
  (List.length (snd (press (Some template_id) n self)) <= 1)%nat.
Proof.
  revert self. induction n as [|n IH]; intros self; [cbn; lia|].
  cbn [press]. rewrite button_mail_send_cases.
  destruct (truthy (py_or (partner_email self) (sale_partner_email self))
            && negb (mail_sent self))%bool.
  - rewrite press_after_sent by reflexivity. cbn. lia.
  - specialize (IH self).
    destruct (press (Some template_id) n self) as [s2 j2]. exact IH.
Qed.

(** With a mail template that resolves: the operation returns True in both
    of its branches, posts exactly when an address exists and [mail_sent] is
    False, then sets [mail_sent] and no other field, and does nothing from
    then on. *)
Lemma button_mail_send_resolved (self : picking) :
  let email := py_or (partner_email self) (sale_partner_email self) in
  let '(self', jobs, r) := button_mail_send (Some template_id) self in
  r = Return true
  /\ jobs = (if (truthy email && negb (mail_sent self))%bool
             then [MessagePostWithTemplate template_id] else [])
  /\ self' = (if (truthy email && negb (mail_sent self))%bool
              then {| partner_email := partner_email self;
                      sale_partner_email := sale_partner_email self;
                      mail_sent := true;
                      delivery_state := delivery_state self;
                      carrier_sms_enabled := carrier_sms_enabled self |}
              else self)
  /\ button_mail_send (Some template_id) self' = (self', [], Return true)
  /\ (forall n : nat, press (Some template_id) n self' = (self', []))
  /\ (forall n : nat,
         (List.length (snd (press (Some template_id) n self)) <= 1)%nat).
Proof.
  cbv zeta. rewrite button_mail_send_cases.
  destruct (truthy (py_or (partner_email self) (sale_partner_email self))
            && negb (mail_sent self))%bool eqn:E.
  - repeat split.
    + apply button_mail_send_after_sent. reflexivity.
    + intros n. apply press_after_sent. reflexivity.
    + intros n. apply press_at_most_one.
  - repeat split.
    + rewrite button_mail_send_cases, E. reflexivity.
    + intros n. apply press_when_idle. exact E.
    + intros n. apply press_at_most_one.
Qed.

End MailSend.

(** C10, as stated, fails: when the reference to the mail template does not
    resolve, [env.ref] raises and the operation does not return True. *)
Lemma button_mail_send_unresolved_template :
  StockPicking.button_mail_send None sample_picking
  = (sample_picking, [], Raise ValueError).
Proof. reflexivity. Qed.

(** C10, amended: when the reference to the mail template resolves,
    [button_mail_send] returns True in both of its branches; it posts the
    shipment-status e-mail exactly when an e-mail address exists (the
    partner's, else the sale partner's) and [mail_sent] is False, and then
    sets [mail_sent] and no other field; every later invocation posts
    nothing and changes nothing, so the operation is idempotent; and any
    number of invocations in a row post at most one e-mail.  When the
    reference does not resolve, [env.ref] raises ValueError first: nothing
    is posted and no field changes, however often the operation is
    invoked. *)
Theorem button_mail_send_idempotent (mail_template : option Z)
    (self : StockPicking.picking) :
  match mail_template with
  | None =>
      StockPicking.button_mail_send None self = (self, [], Raise ValueError)
      /\ (forall n : nat, StockPicking.press None n self = (self, []))
  | Some template_id =>
      let email :=
        StockPicking.py_or (StockPicking.partner_email self)
                           (StockPicking.sale_partner_email self) in
      let sends :=
        (StockPicking.truthy email
         && negb (StockPicking.mail_sent self))%bool in
      let '(self', jobs, r) :=
        StockPicking.button_mail_send (Some template_id) self in
      r = Return true
      /\ jobs = (if sends
                 then [StockPicking.MessagePostWithTemplate template_id]
                 else [])
      /\ self' = (if sends
                  then {| StockPicking.partner_email :=
                            StockPicking.partner_email self;
                          StockPicking.sale_partner_email :=
                            StockPicking.sale_partner_email self;
                          StockPicking.mail_sent := true;
                          StockPicking.delivery_state :=
                            StockPicking.delivery_state self;
                          StockPicking.carrier_sms_enabled :=
                            StockPicking.carrier_sms_enabled self |}
                  else self)
      /\ StockPicking.button_mail_send (Some template_id) self'
         = (self', [], Return true)
      /\ (forall n : nat,
             StockPicking.press (Some template_id) n self' = (self', []))
      /\ (forall n : nat,
             (List.length
                (snd (StockPicking.press (Some template_id) n self))
              <= 1)%nat)
  end.
Proof.
  destruct mail_template as [template_id|].
  - exact (button_mail_send_resolved template_id self).
  - split; [reflexivity|].
    induction n as [|n IH]; [reflexivity|].
    cbn [StockPicking.press StockPicking.button_mail_send].
    rewrite IH. reflexivity.
Qed.

(* ===================================================================== *)
(** ** Further properties: references, amounts, digests *)
(* ===================================================================== *)

Lemma split_first_spec (sep : ascii) (s : string) :
  PyStr.contains (String sep "") (PyStr.split_first sep s) = false
  /\ (s = PyStr.split_first sep s
      \/ exists rest : string, s = PyStr.split_first sep s ++ String sep rest).
Proof.
  induction s as [|c s [IHc IHs]]; [split; [reflexivity|left; reflexivity]|].
  cbn [PyStr.split_first]. destruct (Ascii.eqb_spec c sep) as [->|Hne].
  - split; [reflexivity|]. right. exists s. reflexivity.
  - split.
    + rewrite contains_unfold. cbn [PyStr.startswith].
      rewrite Ascii.eqb_sym. destruct (Ascii.eqb_spec c sep); [contradiction|].
      exact IHc.
    + destruct IHs as [E|(rest & E)].
      * left. cbn. congruence.
      * right. exists rest. cbn. congruence.
Qed.

(** X1: the reference sent to the provider is the transaction reference up
    to, and without, its first "-" (the whole reference when it has none),
    so it never contains a "-"; the e-mail used is in the same way the part
    of [partner_email] before the first ",". *)
Theorem reference_and_email_are_cut_at_the_separator (self : GarantiConnector) :
  PyStr.contains "-" (connector_reference self) = false
  /\ (reference (tx self) = connector_reference self
      \/ exists rest : string,
           reference (tx self) = connector_reference self ++ "-" ++ rest)
  /\ PyStr.contains "," (_get_partner_email self) = false
  /\ (partner_email (tx self) = _get_partner_email self
      \/ exists rest : string,
           partner_email (tx self) = _get_partner_email self ++ "," ++ rest).
Proof.
  unfold connector_reference, _get_partner_email.
  destruct (split_first_spec "-" (reference (tx self))) as [A B].
  destruct (split_first_spec "," (partner_email (tx self))) as [C D].
  repeat split; assumption.
Qed.

(** X2: when the product [amount * 100] overflows to an infinity,
    [_get_amount] raises OverflowError, and when it is not a number,
    ValueError; the constructor of the connector then raises the same
    exception and no connector exists. *)
Theorem get_amount_raises_on_overflow_and_nan :
  (forall (amount : Float.float) (s : bool),
      Float.mul amount Float.hundred = S754_infinity s ->
      _get_amount amount = Raise OverflowError
      /\ forall acq t card_args client_ip,
           GarantiConnector_init acq t amount card_args client_ip
           = Raise OverflowError)
  /\ (forall amount : Float.float,
         Float.mul amount Float.hundred = S754_nan ->
         _get_amount amount = Raise ValueError
         /\ forall acq t card_args client_ip,
              GarantiConnector_init acq t amount card_args client_ip
              = Raise ValueError).
Proof.
  split.
  - intros amount s H.
    assert (E : _get_amount amount = Raise OverflowError)
      by (unfold _get_amount; rewrite H; reflexivity).
    split; [exact E|]. intros. unfold GarantiConnector_init. rewrite E.
    reflexivity.
  - intros amount H.
    assert (E : _get_amount amount = Raise ValueError)
      by (unfold _get_amount; rewrite H; reflexivity).
    split; [exact E|]. intros. unfold GarantiConnector_init. rewrite E.
    reflexivity.
Qed.

(** X2 at the largest finite float, whose hundredfold is an infinity. *)
Lemma get_amount_raises_on_overflow_and_nan_witness :
  _get_amount float_max = Raise OverflowError
  /\ forall acq t card_args client_ip,
       GarantiConnector_init acq t float_max card_args client_ip
       = Raise OverflowError.
Proof.
  apply (proj1 get_amount_raises_on_overflow_and_nan float_max false).
  vm_compute. reflexivity.
Defined.

Lemma binary_round_aux_opp (s : bool) (m e : Z) (l : location) :
  binary_round_aux Float.prec Float.emax (negb s) m e l
  = SFopp (binary_round_aux Float.prec Float.emax s m e l).
Proof.
  unfold binary_round_aux.
  destruct (shr_fexp Float.prec Float.emax m e l) as [mrs' e'].
  destruct (shr_fexp Float.prec Float.emax _ e' loc_Exact) as [mrs'' e''].
  destruct (shr_m mrs''); [reflexivity| |reflexivity].
  destruct (e'' <=? Float.emax - Float.prec); reflexivity.
Qed.

Lemma mul_hundred_opp (x : Float.float) :
  Float.mul (float_neg x) Float.hundred = SFopp (Float.mul x Float.hundred).
Proof.
  unfold Float.mul, float_neg, Float.hundred.
  destruct x as [s|s| |s m e];
    [destruct s; reflexivity|destruct s; reflexivity|reflexivity|].
  cbn [SFmul SFopp].
  replace (xorb (negb s) false) with (negb (xorb s false))
    by (destruct s; reflexivity).
  apply binary_round_aux_opp.
Qed.

Lemma int_of_round0_opp (y : Float.float) :
  Float.int_of_float (Float.round0 (SFopp y))
  = match Float.int_of_float (Float.round0 y) with
    | Return k => Return (- k)
    | Raise e => Raise e
    end.
Proof.
  destruct y as [s|s| |s m e]; try reflexivity.
  cbn [SFopp Float.round0].
  destruct (0 <=? e) eqn:He.
  - cbn [Float.int_of_float]. rewrite He.
    destruct s; cbn [negb cond_Zopp]; f_equal; lia.
  - destruct (Float.nearest_even (Z.pos m) (- e)) as [|n|n];
      cbn [Float.int_of_float]; try reflexivity.
    cbn [Z.leb Z.compare].
    destruct s; cbn [negb cond_Zopp]; f_equal; lia.
Qed.

(** X3: the conversion to minor units is odd: the negated amount converts
    to the negated number of minor units (a tie rounds to the even integer
    on both sides), and raises exactly when the amount itself does. *)
Theorem get_amount_of_negated_amount (amount : Float.float) :
  _get_amount (float_neg amount)
  = match _get_amount amount with
    | Return k => Return (- k)
    | Raise e => Raise e
    end.
Proof.
  unfold _get_amount. rewrite mul_hundred_opp. apply int_of_round0_opp.
Qed.

Lemma repeat_char_length (c : ascii) (n : nat) :
  String.length (PyStr.repeat_char c n) = n.
Proof. induction n as [|n IH]; simpl; [reflexivity|now rewrite IH]. Qed.

Lemma repeat_char_shift (c : ascii) (n : nat) (t : string) :
  PyStr.repeat_char c (S n) ++ t = PyStr.repeat_char c n ++ String c t.
Proof.
  induction n as [|n IH]; [reflexivity|].
  change (PyStr.repeat_char c (S (S n)) ++ t)
    with (String c (PyStr.repeat_char c (S n) ++ t)).
  rewrite IH. reflexivity.
Qed.

Lemma zfill_length (s : string) (width : nat) :
  String.length (PyStr.zfill s width) = Nat.max (String.length s) width.
Proof.
  unfold PyStr.zfill. destruct s as [|c rest].
  - rewrite repeat_char_length. cbn [String.length]. lia.
  - destruct (Ascii.eqb c "+" || Ascii.eqb c "-")%bool;
      cbn [String.length];
      rewrite string_length_app, repeat_char_length;
      cbn [String.length]; lia.
Qed.

Lemma zfill_long_enough (s : string) (width : nat) :
  (width <= String.length s)%nat -> PyStr.zfill s width = s.
Proof.
  intros H. unfold PyStr.zfill.
  replace (width - String.length s)%nat with 0%nat by lia.
  destruct s as [|c rest]; [reflexivity|].
  destruct (Ascii.eqb c "+" || Ascii.eqb c "-")%bool; reflexivity.
Qed.

Lemma zfill_leading_zero (t : string) :
  (String.length t < 9)%nat -> starts_with_sign t = false ->
  PyStr.zfill (String "0" t) 9 = PyStr.zfill t 9.
Proof.
  intros Hlen Hsign. unfold PyStr.zfill.
  change (Ascii.eqb "0" "+" || Ascii.eqb "0" "-")%bool with false.
  cbv iota.
  replace (9 - String.length t)%nat
    with (S (9 - String.length (String "0" t)))
    by (cbn [String.length]; lia).
  destruct t as [|c rest].
  - reflexivity.
  - unfold starts_with_sign in Hsign. rewrite Hsign.
    symmetry. apply repeat_char_shift.
Qed.

(** X4: the security data is the digest of the provisioning password
    followed by the terminal id padded on the left with zeros to 9
    characters: a terminal id of 9 or more characters enters as it is, the
    padded id has max(9, length) characters, and for a terminal id shorter
    than 9 that does not start with a sign, writing one more leading zero
    makes no difference to the digest. *)
Theorem security_data_pads_the_terminal_id (self other : GarantiConnector) :
  let id := garanti_terminal_id (provider self) in
  String.length (PyStr.zfill id 9) = Nat.max (String.length id) 9
  /\ ((9 <= String.length id)%nat ->
      _garanti_compute_security_data self
      = sha1_hex_upper (garanti_prov_password (provider self) ++ id))
  /\ (garanti_prov_password (provider other)
      = garanti_prov_password (provider self) ->
      garanti_terminal_id (provider other) = String "0" id ->
      (String.length id < 9)%nat -> starts_with_sign id = false ->
      _garanti_compute_security_data other
      = _garanti_compute_security_data self).
Proof.
  cbv zeta. split; [apply zfill_length|]. split.
  - intros H. unfold _garanti_compute_security_data.
    rewrite zfill_long_enough by exact H. reflexivity.
  - intros Hp Hid Hlen Hsign. unfold _garanti_compute_security_data.
    rewrite Hp, Hid, zfill_leading_zero by assumption. reflexivity.
Qed.

(** X4 at the terminal ids 30691298 and 030691298. *)
Lemma security_data_pads_the_terminal_id_witness :
  _garanti_compute_security_data (sample_connector_with_terminal "030691298")
  = _garanti_compute_security_data sample_connector.
Proof.
  apply (proj2 (proj2 (security_data_pads_the_terminal_id
                         sample_connector
                         (sample_connector_with_terminal "030691298"))));
    try reflexivity.
  simpl. lia.
Defined.

(** X5: computing the 3-D Secure hash changes nothing of the connector but
    the hash saved on the transaction: each of the other nine attributes of
    the connector and each of the other five fields of the transaction is
    as before, and the saved hash is the digest returned.  The saved hash
    is no input of the digest: whatever hash the transaction holds, the
    digest is the same, so computing it again gives the same digest and the
    same connector. *)
Theorem secure3d_hash_is_stable (self : GarantiConnector) :
  let self' := fst (_garanti_create_secure3d_hash self) in
  let digest := snd (_garanti_create_secure3d_hash self) in
  _garanti_create_secure3d_hash self' = (self', digest)
  /\ (forall h : string,
         snd (_garanti_create_secure3d_hash
                (with_tx self (set_garanti_secure3d_hash (tx self) h)))
         = digest)
  /\ garanti_secure3d_hash (tx self') = Some digest
  /\ url self' = url self
  /\ provider self' = provider self
  /\ amount self' = amount self
  /\ currency_id self' = currency_id self
  /\ card_args self' = card_args self
  /\ client_ip self' = client_ip self
  /\ timeout self' = timeout self
  /\ _debug self' = _debug self
  /\ notification_data self' = notification_data self
  /\ reference (tx self') = reference (tx self)
  /\ partner_email (tx self') = partner_email (tx self)
  /\ partner_lang (tx self') = partner_lang (tx self)
  /\ garanti_payment_currency_id (tx self')
     = garanti_payment_currency_id (tx self)
  /\ tx_state (tx self') = tx_state (tx self).
Proof.
  cbv zeta. split; [reflexivity|]. split; [intros h; reflexivity|].
  repeat split.
Qed.

Lemma keys_distinct_NoDup (keys : list string) :
  keys_distinct keys = true -> NoDup keys.
Proof.
  induction keys as [|k rest IH]; intros H; [constructor|].
  cbn [keys_distinct] in H. apply andb_prop in H. destruct H as [Hk Hr].
  constructor; [|apply IH, Hr].
  intros Hin. apply negb_true_iff in Hk.
  assert (E : existsb (String.eqb k) rest = true).
  { apply existsb_exists. exists k. split; [exact Hin|apply String.eqb_refl]. }
  congruence.
Qed.


(* ===================================================================== *)
(** ** Further properties: the exchange and its log *)
(* ===================================================================== *)

(** X7: [_garanti_requests] writes the audit log before it looks at the
    status: an answer with a status from 400 to 599 raises, and has been
    logged (when debugging is on) like any other answer; an exchange that
    fails in transport leaves the log as it was and its exception passes
    through. *)
Theorem requests_log_before_the_status_check (self : GarantiConnector)
    (net : network) (call : http_call) (log : audit_log) :
  match net call with
  | Raise e => _garanti_requests self net call log = (log, Raise e)
  | Return resp =>
      fst (_garanti_requests self net call log)
      = (if _debug self
         then (log ++ [ (_serialize_request (request resp), "garanti_request");
                        (_serialize_response resp, "garanti_response") ])%list
         else log)
      /\ snd (_garanti_requests self net call log)
         = (if ((400 <=? status_code resp) && (status_code resp <? 600))%bool
            then Raise RequestException
            else Return resp)
  end.
Proof.
  unfold _garanti_requests, _process_http_request, raise_for_status.
  destruct (net call) as [resp|e]; [|reflexivity].
  destruct (_debug self); cbn [negb];
    destruct ((400 <=? status_code resp) && (status_code resp <? 600))%bool;
    split; reflexivity.
Qed.

(** X8: whenever [_garanti_make_payment_request] returns, the kind is
    "form" or "redirect", the parameter set could be built, the provider
    answered with a status outside 400-599, and the page carried no
    [mderrormessage] field. *)
Theorem payment_request_returns_only_clean_pages (S : Serializers)
    (self : GarantiConnector) (net : network) (timestamp : Z)
    (log : audit_log) (kind html : string) :
  snd (_garanti_make_payment_request self net timestamp log)
  = Return (kind, html) ->
  (kind = "form" \/ kind = "redirect")
  /\ exists (self' : GarantiConnector) (vals : dict pyval)
            (resp : http_response),
       _garanti_create_payment_vals self timestamp = Return (self', vals)
       /\ net {| call_method := "POST";
                 call_url := _garanti_get_api_url (provider self');
                 call_params := vals; call_data := None |} = Return resp
       /\ raise_for_status resp = Return tt
       /\ soup_find "input" "name" "mderrormessage" (text_soup resp) = None.
Proof.
  unfold _garanti_make_payment_request.
  destruct (_garanti_create_payment_vals self timestamp)
    as [[self' vals]|e0]; [|discriminate].
  unfold _garanti_requests.
  destruct (net _) as [resp|e1] eqn:Hnet; [|discriminate].
  destruct (_process_http_request self' resp log) as [log' b].
  destruct (raise_for_status resp) as [[]|e2] eqn:Hst; [|discriminate].
  cbn [snd bind]. unfold _garanti_parse_response_html.
  destruct (soup_find "input" "name" "mderrormessage" (text_soup resp))
    as [error_msg|] eqn:Hin.
  - destruct (tag_getitem error_msg "value") as [v|]; [|discriminate].
    destruct (String.eqb v "Not Authenticated"); discriminate.
  - destruct (soup_find "form" "id" "webform0" (text_soup resp));
      cbn [try_except]; intros [= <- <-];
      (split; [auto|]); exists self', vals, resp; auto.
Qed.

(** X8 at the page with the challenge form. *)
Lemma payment_request_returns_only_clean_pages_witness :
  ("form" = "form" \/ "form" = "redirect")
  /\ exists (self' : GarantiConnector) (vals : dict pyval)
            (resp : http_response),
       _garanti_create_payment_vals sample_connector 0 = Return (self', vals)
       /\ (fun _ : http_call => Return challenge_form_page)
            {| call_method := "POST";
               call_url := _garanti_get_api_url (provider self');
               call_params := vals; call_data := None |} = Return resp
       /\ raise_for_status resp = Return tt
       /\ soup_find "input" "name" "mderrormessage" (text_soup resp) = None.
Proof.
  apply (payment_request_returns_only_clean_pages names_only sample_connector
           (fun _ => Return challenge_form_page) 0 [] "form" "form").
  vm_compute. reflexivity.
Defined.

(** X9: in [_garanti_parse_response_html] the error field comes first: a
    page that holds an [mderrormessage] input never yields a result, also
    when it holds the [webform0] form; the parser raises the validation
    error made of the field's value, and KeyError when the input has no
    [value] attribute. *)
Theorem error_field_wins_over_the_form (S : Serializers)
    (response : http_response) (error_msg : html_node) :
  soup_find "input" "name" "mderrormessage" (text_soup response)
  = Some error_msg ->
  exists e : exn,
    _garanti_parse_response_html response = Raise e
    /\ (forall value : string,
           tag_getitem error_msg "value" = Return value ->
           e = ValidationError
                 (if String.eqb value "Not Authenticated"
                  then "Payment failed. POS: Card is not authenticated."
                  else "Payment Error: " ++ value))
    /\ (forall e' : exn, tag_getitem error_msg "value" = Raise e' -> e = e').
Proof.
  intros H. unfold _garanti_parse_response_html. rewrite H.
  destruct (tag_getitem error_msg "value") as [v|e0].
  - destruct (String.eqb v "Not Authenticated") eqn:E;
      eexists; (split; [reflexivity|]);
      (split; [intros value [= <-]; rewrite E; reflexivity|discriminate]).
  - eexists. split; [reflexivity|]. split; [discriminate|].
    intros e' [= <-]. reflexivity.
Qed.

(** X9 at a page whose form holds the error field. *)
Lemma error_field_wins_over_the_form_witness :
  exists e : exn,
    _garanti_parse_response_html error_and_form_page = Raise e
    /\ (forall value : string,
           tag_getitem (Tag "input" [ ("name", "mderrormessage");
                                      ("value", "Declined") ] [])
                       "value" = Return value ->
           e = ValidationError
                 (if String.eqb value "Not Authenticated"
                  then "Payment failed. POS: Card is not authenticated."
                  else "Payment Error: " ++ value))
    /\ (forall e' : exn,
           tag_getitem (Tag "input" [ ("name", "mderrormessage");
                                      ("value", "Declined") ] [])
                       "value" = Raise e' -> e = e').
Proof.
  apply (error_field_wins_over_the_form names_only error_and_form_page).
  reflexivity.
Defined.







(* ===================================================================== *)
(** ** Further properties: confirmation and query documents *)
(* ===================================================================== *)

(** X11: [_garanti_compute_callback_hash_data] never fails on a missing
    field: it is the digest of order id, client id, amount and security
    data, in which a field absent from the notification enters as the text
    "None"; so two notifications whose three fields print alike give the
    same digest, an absent field and the literal text None included. *)
Theorem callback_hash_prints_missing_fields (self other : GarantiConnector) :
  let printed (c : GarantiConnector) (key : string) :=
    str_of_option (dict_get (notification_data c) key) in
  _garanti_compute_callback_hash_data self
  = sha1_hex_upper
      (printed self "oid" ++ printed self "clientid"
       ++ printed self "txnamount" ++ _garanti_compute_security_data self)
  /\ (dict_get (notification_data self) "oid" = None ->
      printed self "oid" = "None")
  /\ (provider other = provider self ->
      printed other "oid" = printed self "oid" ->
      printed other "clientid" = printed self "clientid" ->
      printed other "txnamount" = printed self "txnamount" ->
      _garanti_compute_callback_hash_data other
      = _garanti_compute_callback_hash_data self).
Proof.
  cbv zeta. split; [reflexivity|]. split.
  - intros H. rewrite H. reflexivity.
  - intros Hp Ho Hc Ha.
    unfold _garanti_compute_callback_hash_data, _garanti_compute_security_data.
    rewrite Hp, Ho, Hc, Ha. reflexivity.
Qed.

(** X11 at an empty notification and at one that spells out None. *)
Lemma callback_hash_prints_missing_fields_witness :
  _garanti_compute_callback_hash_data
    (sample_connector_notified
       [("oid", "None"); ("clientid", "None"); ("txnamount", "None")])
  = _garanti_compute_callback_hash_data (sample_connector_notified []).
Proof.
  apply (proj2 (proj2 (callback_hash_prints_missing_fields
                         (sample_connector_notified [])
                         (sample_connector_notified
                            [("oid", "None"); ("clientid", "None");
                             ("txnamount", "None")]))));
    reflexivity.
Defined.

(** X12: the document built for the confirmation and for the query has the
    eight children Mode, Version, ChannelCode, Terminal, Customer, Card,
    Order and Transaction in this order; whatever the connector holds, its
    card fields are empty texts; and the paths of the document lead back to
    what was put in: the notification's client id, e-mail, order id, amount
    and 3-D Secure token, and the callback hash. *)
Theorem request_document_shape (self : GarantiConnector) :
  let nd := notification_data self in
  map element_tag (element_children (gvps_request_tree self))
  = ["Mode"; "Version"; "ChannelCode"; "Terminal"; "Customer"; "Card";
     "Order"; "Transaction"]
  /\ request_text self "Card" ["Number"] = Some (Some "")
  /\ request_text self "Card" ["ExpireDate"] = Some (Some "")
  /\ request_text self "Card" ["CVV2"] = Some (Some "")
  /\ request_text self "Terminal" ["ID"] = Some (dict_get nd "clientid")
  /\ request_text self "Terminal" ["HashData"]
     = Some (Some (_garanti_compute_callback_hash_data self))
  /\ request_text self "Customer" ["EmailAddress"]
     = Some (dict_get nd "customeremailaddress")
  /\ request_text self "Order" ["OrderID"] = Some (dict_get nd "oid")
  /\ request_text self "Transaction" ["Amount"]
     = Some (dict_get nd "txnamount")
  /\ request_text self "Transaction" ["Type"] = Some (dict_get nd "txntype")
  /\ request_text self "Transaction" ["Secure3D"; "Md"]
     = Some (dict_get nd "md")
  /\ request_text self "Order" ["AddressList"; "Address"; "Type"]
     = Some (Some "B").
Proof. cbv zeta. repeat split. Qed.

(** X13: [_garanti_query_transaction] builds its request document before
    the [try]: when a text of the connector's own data (reference, e-mail,
    terminal or provider texts) holds a control character, the [ValueError]
    of the build is what the caller gets, whatever the provider would
    answer.  Once the document is built, on a well-formed answer it returns
    the text of the first ErrorMsg node when both that text and the text of
    the first ReasonCode node are non-empty, and True otherwise; the value
    of the reason code is never looked at.  A document without a ReasonCode
    node makes it raise AttributeError; so does a missing ErrorMsg node, but
    only when the reason code is non-empty. *)
Theorem query_outcome_ignores_the_reason_code (S : Serializers)
    (self : GarantiConnector) (resp : http_response) (root : element)
    (log : audit_log) :
  raise_for_status resp = Return tt ->
  content_xml resp = Some root ->
  let outcome :=
    snd (_garanti_query_transaction self (fun _ => Return resp) log) in
  let built :=
    xml_texts_ok
      (gvps_request_tree
         (with_notification_data self (query_notification_data self))) in
  let reason_code := find_path root "ReasonCode" [] in
  let error_msg := find_path root "ErrorMsg" [] in
  (built = false -> outcome = Raise ValueError)
  /\ (built = true ->
      (reason_code = None -> outcome = Raise AttributeError)
      /\ (forall rc : element,
             reason_code = Some rc ->
             (text_truthy (element_text rc) = false ->
              outcome = Return (PyBool true))
             /\ (text_truthy (element_text rc) = true ->
                 (error_msg = None -> outcome = Raise AttributeError)
                 /\ (forall en : element,
                        error_msg = Some en ->
                        outcome
                        = Return (if text_truthy (element_text en)
                                  then pyval_of_option (element_text en)
                                  else PyBool true))))).
Proof.
  intros Hst Hx. cbv zeta. rewrite query_transaction_result. cbv zeta.
  split; [intros ->; reflexivity|]. intros ->. rewrite Hst.
  unfold query_parse, fromstring. rewrite Hx. cbn [bind].
  split.
  - intros ->. reflexivity.
  - intros rc ->. cbn [text_of_found bind]. split.
    + intros ->. reflexivity.
    + intros ->. split.
      * intros ->. reflexivity.
      * intros en ->. cbn [text_of_found bind].
        destruct (text_truthy (element_text en)); reflexivity.
Qed.

(** X13 at two answers with the reason code "00": with an empty ErrorMsg
    the query returns True, with an error text it returns that text. *)
Lemma query_outcome_ignores_the_reason_code_witness :
  snd (_garanti_query_transaction sample_connector
         (fun _ => Return approved_response) [])
  = Return (PyBool true)
  /\ snd (_garanti_query_transaction sample_connector
            (fun _ => Return declined_with_error_text) [])
     = Return (PyStr "Insufficient funds").
Proof.
  split.
  - destruct (query_outcome_ignores_the_reason_code names_only
                sample_connector approved_response _ [] eq_refl eq_refl)
      as [_ H0].
    destruct (H0 eq_refl) as [_ H].
    destruct (H _ eq_refl) as [_ H1]. destruct (H1 eq_refl) as [_ H2].
    exact (H2 _ eq_refl).
  - destruct (query_outcome_ignores_the_reason_code names_only
                sample_connector declined_with_error_text _ [] eq_refl eq_refl)
      as [_ H0].
    destruct (H0 eq_refl) as [_ H].
    destruct (H _ eq_refl) as [_ H1]. destruct (H1 eq_refl) as [_ H2].
    exact (H2 _ eq_refl).
Defined.


(** X15: [_garanti_payment_callback] stores the notification on the
    connector and touches nothing else: every other attribute is as before,
    whatever happens next.  When a text of the document holds a control
    character the build raises [ValueError] and the audit log is left as it
    was; once the document is built, the log gains two entries when
    debugging is on and an answer arrived, none otherwise. *)
Theorem payment_callback_frame (S : Serializers) (self : GarantiConnector)
    (net : network) (nd : dict string) (log : audit_log) :
  let '(self', log', r) := _garanti_payment_callback self net nd log in
  let built :=
    xml_texts_ok (gvps_request_tree (with_notification_data self nd)) in
  notification_data self' = nd
  /\ url self' = url self
  /\ provider self' = provider self
  /\ tx self' = tx self
  /\ amount self' = amount self
  /\ currency_id self' = currency_id self
  /\ card_args self' = card_args self
  /\ client_ip self' = client_ip self
  /\ timeout self' = timeout self
  /\ _debug self' = _debug self
  /\ (built = false -> log' = log /\ r = Raise ValueError)
  /\ exists added : audit_log,
       log' = (log ++ added)%list
       /\ List.length added
          = if built
            then
              match net (callback_call (with_notification_data self nd)) with
              | Return _ => if _debug self then 2%nat else 0%nat
              | Raise _ => 0%nat
              end
            else 0%nat.
Proof.
  unfold _garanti_payment_callback, _garanti_create_callback_xml,
    build_gvps_request, _garanti_requests, _process_http_request.
  destruct (xml_texts_ok (gvps_request_tree (with_notification_data self nd)));
    cbn [bind].
  - fold (callback_call (with_notification_data self nd)).
    destruct (net (callback_call (with_notification_data self nd)))
      as [resp|e].
    + change (_debug (with_notification_data self nd)) with (_debug self).
      destruct (_debug self) eqn:Hdebug; cbn [negb];
        destruct (raise_for_status resp);
        (do 9 (split; [reflexivity|])); (split; [exact Hdebug|]);
        (split; [discriminate|]).
      1, 2: eexists; split; reflexivity.
      1, 2: exists []; split; [symmetry; apply app_nil_r|reflexivity].
    + do 10 (split; [reflexivity|]). split; [discriminate|].
      exists []. split; [symmetry; apply app_nil_r|reflexivity].
  - do 10 (split; [reflexivity|]). split; [intros _; split; reflexivity|].
    exists []. split; [symmetry; apply app_nil_r|reflexivity].
Qed.

(* ===================================================================== *)
(** ** Further properties: the initiate endpoint *)
(* ===================================================================== *)

(** X16: the card arguments that the handler hands to the validation and to
    the payment request are the five card fields of the request, each under
    its own key: looking a key up gives back the field, [None] when the
    request does not carry it, and no other key is present. *)
Theorem card_args_carry_the_request_fields (kw : Controller.kwargs) :
  let card_args := Controller.build_card_args kw in
  dict_get card_args "card_number" = Controller.cc_number kw
  /\ dict_get card_args "card_cvv" = Controller.cc_cvc kw
  /\ dict_get card_args "card_name" = Controller.cc_holder_name kw
  /\ dict_get card_args "card_valid_month" = Controller.cc_expiry_month kw
  /\ dict_get card_args "card_valid_year" = Controller.cc_expiry_year kw
  /\ NoDup (map fst card_args)
  /\ incl (map fst card_args)
          ["card_number"; "card_cvv"; "card_name"; "card_valid_month";
           "card_valid_year"]
  /\ cardexpiredateyear card_args
     = match Controller.cc_expiry_year kw with
       | Some year => Return (PyStr.replace year "20" "")
       | None => Raise AttributeError
       end.
Proof.
  cbv zeta. unfold Controller.build_card_args, cardexpiredateyear.
  destruct (Controller.cc_number kw), (Controller.cc_cvc kw),
    (Controller.cc_holder_name kw), (Controller.cc_expiry_month kw),
    (Controller.cc_expiry_year kw);
    cbn [Controller.set_item app];
    (split; [reflexivity|]); (split; [reflexivity|]);
    (split; [reflexivity|]); (split; [reflexivity|]);
    (split; [reflexivity|]);
    (split; [apply keys_distinct_NoDup; reflexivity|]);
    (split; [|reflexivity]);
    cbn [map fst]; intros k Hk; cbn [In] in *; intuition.
Qed.

(** X17: whatever the request and the environment, the initiate handler
    ends in one of three ways: it raises before anything happened; or it
    returns what the payment request returned, after the transaction was
    created, the request sent and the transaction added to the session; or
    the payment request raised, the error was set on the transaction, the
    transaction was still added to the session, and the handler ends in
    UnboundLocalError.  It never returns a result after an error was set. *)
Theorem initiate_handler_outcomes (env : Controller.environment)
    (kw : Controller.kwargs) :
  let '(events, r) := Controller.garanti_s2s_create_json_3ds env kw in
  (events = [] /\ exists e : exn, r = Raise e)
  \/ (exists vals amount card_args client_ip,
         events = [ Controller.TransactionCreated vals;
                    Controller.PaymentRequestSent amount card_args client_ip;
                    Controller.PaymentTransactionAdded ]
         /\ r = Controller.acquirer_make_payment_request env vals amount
                  card_args client_ip
         /\ exists content, r = Return content)
  \/ (exists vals amount card_args client_ip e,
         events = [ Controller.TransactionCreated vals;
                    Controller.PaymentRequestSent amount card_args client_ip;
                    Controller.TransactionErrorSet
                      "Payment Error. Please contact us.";
                    Controller.PaymentTransactionAdded ]
         /\ Controller.acquirer_make_payment_request env vals amount
              card_args client_ip = Raise e
         /\ r = Raise (UnboundLocalError "response_content")).
Proof.
  unfold Controller.garanti_s2s_create_json_3ds.
  destruct (Controller.order_id kw) as [oid|e]; [|left; eauto].
  destruct (oid =? 0); [left; eauto|].
  destruct (Controller.sale_orders env oid) as [order|]; [|left; eauto].
  destruct (Controller.acquirer_id kw) as [acq_id|e]; [|left; eauto].
  destruct (Controller.truthy _); [left; eauto|].
  destruct (Controller.parse_amount kw) as [amount|e]; [|left; eauto].
  destruct (negb _); [left; eauto|]. cbv zeta.
  destruct (Controller.acquirer_make_payment_request env _ amount _ _)
    as [content|e] eqn:Hp.
  - right. left. do 4 eexists. split; [reflexivity|].
    split; [symmetry; exact Hp|eauto].
  - right. right. do 5 eexists. split; [reflexivity|].
    split; [exact Hp|reflexivity].
Qed.

Section Validation.

Import Controller.

Variable env : environment.
Variable kw : kwargs.
Variables (oid acq_id : Z) (order : sale_order).

Hypothesis order_id_given : order_id kw = Return oid.
Hypothesis order_id_nonzero : oid <> 0.
Hypothesis order_found : sale_orders env oid = Some order.
Hypothesis acquirer_id_given : acquirer_id kw = Return acq_id.

(** X18: for a request whose order exists, the card arguments are checked
    before the amount: a card error is raised with the validator's message
    whatever the amount is; with valid card arguments, an amount that
    [float] rejects with ValueError or TypeError is answered by
    ValidationError("Invalid amount"), and any other exception of the
    conversion passes through as it is; in all three cases nothing has
    happened yet. *)
Theorem card_check_comes_before_amount_check :
  let card_error := _garanti_validate_card_args env (build_card_args kw) in
  (truthy card_error = true ->
   garanti_s2s_create_json_3ds env kw
   = ([], Raise (ValidationError (str_of_option card_error))))
  /\ (truthy card_error = false ->
      (amount_total kw = Raise ValueError \/ amount_total kw = Raise TypeError ->
       garanti_s2s_create_json_3ds env kw
       = ([], Raise (ValidationError "Invalid amount")))
      /\ (forall e : exn,
             amount_total kw = Raise e -> e <> ValueError -> e <> TypeError ->
             garanti_s2s_create_json_3ds env kw = ([], Raise e))).
Proof.
  cbv zeta. unfold garanti_s2s_create_json_3ds.
  rewrite order_id_given.
  destruct (Z.eqb_spec oid 0) as [E|_]; [contradiction|].
  rewrite order_found, acquirer_id_given.
  split; [intros ->; reflexivity|]. intros ->. unfold parse_amount. split.
  - intros [-> | ->]; reflexivity.
  - intros e -> H1 H2. destruct e; try reflexivity; contradiction.
Qed.

End Validation.

(** X18 at an amount that is not a number. *)
Lemma card_check_comes_before_amount_check_witness :
  Controller.garanti_s2s_create_json_3ds sample_environment
    (sample_kwargs_with (Raise ValueError))
  = ([], Raise (ValidationError "Invalid amount")).
Proof.
  refine (proj1 (proj2 (card_check_comes_before_amount_check
                          sample_environment
                          (sample_kwargs_with (Raise ValueError))
                          42 5 sample_order _ _ _ _) _) _);
    try reflexivity.
  - discriminate.
  - left. reflexivity.
Defined.

(** X19 at a request that matches its order: the effects are there, and
    with them the matching amount. *)
Lemma effects_need_matching_amount_witness :
  exists (oid : Z) (order : Controller.sale_order) (amount : Float.float),
    Controller.order_id (sample_kwargs float_19_995) = Return oid
    /\ Controller.sale_orders sample_environment oid = Some order
    /\ Controller.parse_amount (sample_kwargs float_19_995) = Return amount
    /\ Controller.float_compare sample_environment amount
         (Controller.garanti_payment_amount order)
         (Controller.precision_get_account sample_environment) = 0.
Proof.
  apply (effects_need_matching_amount sample_environment
           (sample_kwargs float_19_995)).
  vm_compute. discriminate.
Defined.

(** X20 at the year 2030. *)
Lemma expiry_year_of_this_century_witness :
  cardexpiredateyear [("card_valid_year", "2030")] = Return "30".
Proof.
  apply (expiry_year_of_this_century "3" "0"). reflexivity.
Defined.

(* ===================================================================== *)
(** ** Further properties: pickings *)
(* ===================================================================== *)

(** [sms_wanted] spelled out. *)
Lemma sms_wanted_true (carrier : option Delivery.delivery_carrier) :
  Delivery.sms_wanted carrier = true
  <-> exists c : Delivery.delivery_carrier,
        carrier = Some c
        /\ (exists t : string,
               Delivery.carrier_delivery_type c = Some t
               /\ t <> "base_on_rule" /\ t <> "fixed")
        /\ Delivery.send_sms_customer c = true
        /\ Delivery.sms_service_id c <> None.
Proof.
  destruct carrier as [c|]; cbn [Delivery.sms_wanted].
  - destruct (Delivery.carrier_delivery_type c) as [t|] eqn:Ht.
    + destruct (String.eqb_spec t "base_on_rule") as [E1|E1];
        [|destruct (String.eqb_spec t "fixed") as [E2|E2]];
        cbn [orb negb andb].
      * split; [discriminate|].
        intros (c' & Hc' & (t' & Ht' & H1 & _) & _). congruence.
      * split; [discriminate|].
        intros (c' & Hc' & (t' & Ht' & _ & H2) & _). congruence.
      * destruct (Delivery.send_sms_customer c) eqn:Hs;
          [destruct (Delivery.sms_service_id c) eqn:Hv|]; cbn [andb].
        -- split; [|reflexivity]. intros _. exists c.
           split; [reflexivity|]. split; [exists t; auto|].
           split; [exact Hs|congruence].
        -- split; [discriminate|].
           intros (c' & Hc' & _ & _ & H). congruence.
        -- split; [discriminate|].
           intros (c' & Hc' & _ & H & _). congruence.
    + cbn [negb andb]. split; [discriminate|].
      intros (c' & Hc' & (t' & Ht' & _) & _). congruence.
  - split; [discriminate|]. intros (c' & Hc' & _). discriminate.
Qed.

(** X21: [write] queues the tracking SMS exactly when the values carry the
    delivery state "in_transit", the picking is not in that state yet, and
    its carrier has a provider delivery type (neither unset nor
    "base_on_rule" nor "fixed"), wants the customer notified and has an SMS
    service; it queues nothing else, and writing the same values once more
    queues nothing and changes nothing. *)
Theorem write_notifies_on_entering_transit (self : StockPicking.picking)
    (carrier : option Delivery.delivery_carrier)
    (vals : StockPicking.write_vals) :
  let '(self', jobs) :=
    StockPicking.write (Delivery.with_carrier self carrier) vals in
  (jobs = [StockPicking.SmsNotification] \/ jobs = [])
  /\ (jobs = [StockPicking.SmsNotification]
      <-> StockPicking.w_delivery_state vals = Some "in_transit"
          /\ StockPicking.delivery_state self <> Some "in_transit"
          /\ exists c : Delivery.delivery_carrier,
               carrier = Some c
               /\ (exists t : string,
                      Delivery.carrier_delivery_type c = Some t
                      /\ t <> "base_on_rule" /\ t <> "fixed")
               /\ Delivery.send_sms_customer c = true
               /\ Delivery.sms_service_id c <> None)
  /\ StockPicking.write self' vals = (self', []).
Proof.
  pose proof (sms_wanted_true carrier) as Hw.
  unfold StockPicking.write, StockPicking._tracking_status_notification,
    Delivery.with_carrier.
  cbn [StockPicking.delivery_state StockPicking.carrier_sms_enabled
       StockPicking.partner_email StockPicking.sale_partner_email
       StockPicking.mail_sent].
  destruct (StockPicking.w_delivery_state vals) as [st|] eqn:Hst;
    [destruct (String.eqb_spec st "in_transit") as [->|Hne];
     [destruct (StockPicking.delivery_state self) as [cur|] eqn:Hcur;
      [destruct (String.eqb_spec "in_transit" cur) as [<-|Hc]|];
      cbn [negb andb]|cbn [andb]]|];
    try (destruct (Delivery.sms_wanted carrier) eqn:Hsms);
    (split; [auto|]);
    (split;
     [|try (destruct (String.eqb_spec st "in_transit") as [E|_];
            [contradiction|]);
       destruct (StockPicking.w_mail_sent vals); reflexivity]);
    (split;
     [first [ discriminate
            | intros _; split; [reflexivity|];
              split; [congruence|apply Hw; reflexivity] ]
     |first [ reflexivity
            | intros (HA & HB & HE);
              first [congruence | apply Hw in HE; discriminate HE] ]]).
Qed.

Lemma label_loop_calls (env : Delivery.environment)
    (self : list Delivery.picking)
    (todo : list (Delivery.picking * Delivery.delivery_carrier)) :
  Forall (fun call => Delivery.label_call_records call = self)
         (fst (Delivery.label_loop env self todo))
  /\ (List.length (fst (Delivery.label_loop env self todo))
      <= List.length todo)%nat
  /\ (snd (Delivery.label_loop env self todo) = Return tt ->
      List.length (fst (Delivery.label_loop env self todo))
      = List.length todo
      /\ forallb (Delivery.ready env) todo = true).
Proof.
  induction todo as [|[picking carrier] rest IH].
  - cbn. split; [constructor|]. split; [lia|]. intros _. split; reflexivity.
  - cbn [Delivery.label_loop forallb List.length].
    destruct (Delivery.ready env (picking, carrier)).
    + destruct (Delivery.provider_get_label env _ carrier picking)
        as [data|e].
      * destruct (Delivery.label_call_outcome env _) as [u|e] eqn:Hout.
        -- destruct (Delivery.label_loop env self rest) as [calls r].
           cbn [fst snd List.length] in *.
           destruct IH as (IH1 & IH2 & IH3).
           split; [constructor; [destruct (Delivery.attach_barcode carrier);
                                 reflexivity|exact IH1]|].
           split; [lia|]. intros Hr. destruct (IH3 Hr) as [H1 H2].
           split; [lia|exact H2].
        -- cbn [fst snd List.length].
           split; [constructor; [destruct (Delivery.attach_barcode carrier);
                                 reflexivity|constructor]|].
           split; [lia|discriminate].
      * cbn [fst snd List.length]. split; [constructor|].
        split; [lia|discriminate].
    + cbn [fst snd List.length]. split; [constructor|].
      split; [lia|discriminate].
Qed.

(** X22: [carrier_get_label] makes at most one label call per picking that
    has a carrier, and every call is made on the whole record set [self],
    not on the picking whose label was fetched.  It ends without an error
    only if every such picking was ready (its label method exists and its
    carrier has a printer) and got its call; a first picking that is not
    ready stops it before any call with the message about the missing
    printer, also when the printer is set and only the method is missing;
    pickings without a carrier are passed over. *)
Theorem carrier_get_label_calls (env : Delivery.environment)
    (self : list Delivery.picking) :
  let '(calls, r) := Delivery.carrier_get_label env self in
  let todo := Delivery.filtered_carrier_id self in
  Forall (fun call => Delivery.label_call_records call = self) calls
  /\ (List.length calls <= List.length todo)%nat
  /\ (r = Return tt ->
      List.length calls = List.length todo
      /\ forallb (Delivery.ready env) todo = true)
  /\ (forall (picking : Delivery.picking)
             (carrier : Delivery.delivery_carrier)
             (rest : list (Delivery.picking * Delivery.delivery_carrier)),
         todo = (picking, carrier) :: rest ->
         Delivery.hasattr env
           (Delivery.str_of_field (Delivery.delivery_type picking)
            ++ "_carrier_get_label") = false
         \/ Delivery.default_printer_id carrier = None ->
         calls = []
         /\ r = Raise (ValidationError
                         ("No default printer defined for the carrier "
                          ++ Delivery.carrier_name carrier)))
  /\ (Forall (fun p => Delivery.carrier_id p = None) self ->
      calls = [] /\ r = Return tt).
Proof.
  pose proof (label_loop_calls env self (Delivery.filtered_carrier_id self))
    as (H1 & H2 & H3).
  unfold Delivery.carrier_get_label in *.
  destruct (Delivery.label_loop env self (Delivery.filtered_carrier_id self))
    as [calls r] eqn:Hloop.
  cbv zeta. cbn [fst snd] in *.
  split; [exact H1|]. split; [exact H2|]. split; [exact H3|]. split.
  - intros picking carrier rest Htodo Hnot. rewrite Htodo in Hloop.
    cbn [Delivery.label_loop] in Hloop.
    assert (Hr : Delivery.ready env (picking, carrier) = false).
    { unfold Delivery.ready. cbn [fst snd].
      destruct Hnot as [-> | ->]; [reflexivity|apply andb_false_r]. }
    rewrite Hr in Hloop. unfold Delivery.no_printer in Hloop.
    inversion Hloop. split; reflexivity.
  - intros Hall.
    assert (Hnil : Delivery.filtered_carrier_id self = []).
    { clear - Hall. induction Hall as [|p l Hp _ IH]; [reflexivity|].
      unfold Delivery.filtered_carrier_id in *. cbn [flat_map].
      rewrite Hp, IH. reflexivity. }
    rewrite Hnil in Hloop. cbn in Hloop. inversion Hloop. split; reflexivity.
Qed.

(* ===================================================================== *)
(** ** Further properties: the return endpoint *)
(* ===================================================================== *)

(** X23: [garanti_return_from_3ds_auth] never lets an exception of the
    feedback escape: the only exceptions that leave it are those of
    [get_portal_url]; a transaction without sale orders is handled like a
    failed feedback; the error page is shown only when the feedback failed
    and the request names no order that exists; and every redirect goes to
    the portal address of a non-empty set of orders: the first order of the
    transaction, or after a failure the orders found under the name given
    in the request. *)
Theorem return_handler_hides_the_failure (env : Return3DS.environment)
    (kwargs : dict string) :
  let r := Return3DS.garanti_return_from_3ds_auth env kwargs in
  let requested :=
    match dict_get kwargs "orderid" with
    | Some name => if String.eqb name "" then []
                   else Return3DS.search_name env name
    | None => []
    end in
  (forall e : exn,
      r = Raise e ->
      exists orders : list Z,
        orders <> [] /\ Return3DS.get_portal_url env orders = Raise e)
  /\ ((exists e : exn, Return3DS.form_feedback env kwargs = Raise e)
      \/ Return3DS.form_feedback env kwargs = Return [] ->
      r = Return3DS.on_failure env kwargs)
  /\ (forall text : string,
         r = Return (Return3DS.Body text) ->
         text = Return3DS.error_page
         /\ requested = []
         /\ exists e : exn, Return3DS.feedback_orders env kwargs = Raise e)
  /\ (forall location : string,
         r = Return (Return3DS.Redirect location) ->
         match Return3DS.form_feedback env kwargs with
         | Return (first :: _) =>
             Return3DS.get_portal_url env [first] = Return location
         | _ =>
             requested <> []
             /\ Return3DS.get_portal_url env requested = Return location
         end).
Proof.
  cbv zeta.
  unfold Return3DS.garanti_return_from_3ds_auth, Return3DS.feedback_orders,
    Return3DS.on_failure.
  destruct (Return3DS.form_feedback env kwargs) as [[|first others]|e0];
    cbn [bind firstn].
  1, 3: destruct (dict_get kwargs "orderid") as [name|];
    [destruct (String.eqb name ""); cbn [negb];
     [|destruct (Return3DS.search_name env name) as [|o os] eqn:Hs;
       [|destruct (Return3DS.get_portal_url env (o :: os)) as [loc|e1] eqn:Hu;
         cbn [bind]]]|];
    (split; [intros e He;
             first [ discriminate He
                   | injection He as <-; exists (o :: os);
                     split; [discriminate|exact Hu] ]|]);
    (split; [intros _; reflexivity|]);
    (split; [intros text Ht;
             first [ discriminate Ht
                   | injection Ht as <-; split; [reflexivity|];
                     split; [reflexivity|eauto] ]|]);
    intros location Hl;
    first [ discriminate Hl
          | injection Hl as <-; split; [discriminate|reflexivity] ].
  destruct (Return3DS.get_portal_url env [first]) as [loc|e1] eqn:Hu;
    cbn [bind].
  - split; [discriminate|].
    split; [intros [[e He]|He]; discriminate He|].
    split; [discriminate|]. intros location Hl. injection Hl as <-.
    reflexivity.
  - split; [intros e He; injection He as <-; exists [first];
            split; [discriminate|exact Hu]|].
    split; [intros [[e He]|He]; discriminate He|].
    split; discriminate.
Qed.
